(** * TWLight: the [Application] model (TWLight/applications/models.py)

    A shallow embedding of the [Application] Django model: its [save]
    override, which derives [date_closed], [days_open] and
    [earliest_expiry_date], and its read-only accessors.

    Conventions of the embedding.
    - A [datetime.date] is its proleptic Gregorian ordinal
      ([date.toordinal()]), an integer between [date_min] and [date_max];
      [d1 - d2] on dates is a [timedelta] whose [.days] is the difference
      of the ordinals.
    - A [datetime.timedelta] is its [.days] component (the only part that
      [date + timedelta] reads); it is signed, as in Python.
    - Python's [None] for a nullable attribute is [None] of an [option].
    - Exceptions are values of [exn]; a call that may raise returns a
      [result].  A method that assigns attributes of [self] runs in the
      monad [M], whose state (the in-memory object and the database) is
      kept when an exception propagates: Python does not roll back the
      assignments already made.
    - The database and django-reversion are outside the module.  What the
      database answers to a write is part of the table ([write_error]);
      the revision block in which [save] runs is an argument of [save]
      ([RevisionBlock.t]). *)

From stdpp Require Import base gmap strings list.
From Stdlib Require Import ZArith Lia.

Open Scope Z_scope.

(** ** Exceptions and results *)

Inductive exn : Set :=
  | TypeError
  | IndexError
  | KeyError
  | AttributeError
  | AssertionError
  | OverflowError
  | IntegrityError
  | DatabaseError.

#[global] Instance exn_eq_dec : EqDecision exn.
Proof. solve_decision. Defined.

Inductive result (A : Type) : Type :=
  | Ok (a : A)
  | Raise (e : exn).

Arguments Ok {A} a.
Arguments Raise {A} e.

#[global] Instance result_ret : MRet result := λ A a, Ok a.
#[global] Instance result_bind : MBind result := λ A B f m,
  match m with
  | Ok a => f a
  | Raise e => Raise e
  end.

(** [try: body except handled: handler]. *)
Definition try_except {A} (body : result A) (handled : list exn)
    (handler : result A) : result A :=
  match body with
  | Ok a => Ok a
  | Raise e => if bool_decide (e ∈ handled) then handler else Raise e
  end.

(** ** Dates and durations *)

Definition date : Type := Z.
Definition timedelta : Type := Z.

(** [date.min.toordinal()] and [date.max.toordinal()]. *)
Definition date_min : Z := 1.
Definition date_max : Z := 3652059.

Definition date_in_range (d : Z) : Prop := date_min ≤ d ≤ date_max.

#[global] Instance date_in_range_dec d : Decision (date_in_range d).
Proof. unfold date_in_range. apply _. Defined.

(** [d + t] for a date and a timedelta: [OverflowError] outside
    [date.min .. date.max]. *)
Definition date_add (d : date) (t : timedelta) : result date :=
  if decide (date_in_range (d + t)) then Ok (d + t) else Raise OverflowError.

(** [(d1 - d2).days]. *)
Definition days_between (d1 d2 : date) : Z := d1 - d2.

(** [a - b] where either operand may be [None]: subtracting with [None]
    is a [TypeError]. *)
Definition date_sub (a b : option date) : result Z :=
  match a, b with
  | Some x, Some y => Ok (days_between x y)
  | _, _ => Raise TypeError
  end.

(** ** The data model *)

(** Modelled from the spec: the Partner entity
    (TWLight.resources.models.Partner) is not among the sources; the
    application reads only its [access_grant_term], a duration. *)
Record Partner : Type := {
  partner_id : Z;
  access_grant_term : timedelta
}.

Definition PENDING : Z := 0.
Definition QUESTION : Z := 1.
Definition APPROVED : Z := 2.
Definition NOT_APPROVED : Z := 3.

(** The fields of the model, with the implicit primary key [pk], which
    is [None] until the object has been inserted. *)
Record Application : Type := {
  pk : option Z;
  status : Z;
  date_created : option date;
  date_closed : option date;
  days_open : option Z;
  earliest_expiry_date : option date;
  editor : Z;
  partner : Partner;
  rationale : string;
  specific_title : string;
  specific_stream : option Z;
  comments : string;
  agreement_with_terms_of_use : bool
}.

Definition set_pk (v : option Z) (a : Application) : Application :=
  {| pk := v; status := status a; date_created := date_created a;
     date_closed := date_closed a; days_open := days_open a;
     earliest_expiry_date := earliest_expiry_date a; editor := editor a;
     partner := partner a; rationale := rationale a;
     specific_title := specific_title a;
     specific_stream := specific_stream a; comments := comments a;
     agreement_with_terms_of_use := agreement_with_terms_of_use a |}.

Definition set_date_created (v : option date) (a : Application) : Application :=
  {| pk := pk a; status := status a; date_created := v;
     date_closed := date_closed a; days_open := days_open a;
     earliest_expiry_date := earliest_expiry_date a; editor := editor a;
     partner := partner a; rationale := rationale a;
     specific_title := specific_title a;
     specific_stream := specific_stream a; comments := comments a;
     agreement_with_terms_of_use := agreement_with_terms_of_use a |}.

Definition set_date_closed (v : option date) (a : Application) : Application :=
  {| pk := pk a; status := status a; date_created := date_created a;
     date_closed := v; days_open := days_open a;
     earliest_expiry_date := earliest_expiry_date a; editor := editor a;
     partner := partner a; rationale := rationale a;
     specific_title := specific_title a;
     specific_stream := specific_stream a; comments := comments a;
     agreement_with_terms_of_use := agreement_with_terms_of_use a |}.

Definition set_days_open (v : option Z) (a : Application) : Application :=
  {| pk := pk a; status := status a; date_created := date_created a;
     date_closed := date_closed a; days_open := v;
     earliest_expiry_date := earliest_expiry_date a; editor := editor a;
     partner := partner a; rationale := rationale a;
     specific_title := specific_title a;
     specific_stream := specific_stream a; comments := comments a;
     agreement_with_terms_of_use := agreement_with_terms_of_use a |}.

Definition set_earliest_expiry_date (v : option date) (a : Application)
    : Application :=
  {| pk := pk a; status := status a; date_created := date_created a;
     date_closed := date_closed a; days_open := days_open a;
     earliest_expiry_date := v; editor := editor a;
     partner := partner a; rationale := rationale a;
     specific_title := specific_title a;
     specific_stream := specific_stream a; comments := comments a;
     agreement_with_terms_of_use := agreement_with_terms_of_use a |}.

(** Truth value of a nullable attribute holding a model instance or a
    date: [None] is false, every such object is true. *)
Definition truthy {A} (o : option A) : bool :=
  match o with
  | Some _ => true
  | None => false
  end.

(** [x in [a, b]] on integers. *)
Definition py_in (x : Z) (l : list Z) : bool := bool_decide (x ∈ l).

(** ** Revision history (django-reversion) *)

Module Revision.
Record t : Type := {
  user : option Z;
  date_created : Z
}.
End Revision.

Module Version.
Record t : Type := {
  object_id : Z;
  field_dict : Application;
  revision : Revision.t
}.
End Version.

(** The applications table: the primary keys that have a row, and what
    the database answers when it is asked to write a row (the flag tells an
    insertion from an update): [None] when it accepts the row, the
    exception it raises otherwise (a NOT NULL column left empty, a value
    outside the range of its column, a foreign key without target, a lost
    connection). *)
Record Table : Type := {
  keys : gset Z;
  write_error : bool → Application → option exn
}.

#[global] Instance Table_elem_of : ElemOf Z Table := λ k t, k ∈ keys t.

#[global] Instance Table_elem_of_dec (k : Z) (t : Table) : Decision (k ∈ t).
Proof. unfold elem_of, Table_elem_of. apply _. Defined.

(** The table with a row under key [k]. *)
Definition add_key (k : Z) (t : Table) : Table :=
  {| keys := {[k]} ∪ keys t; write_error := write_error t |}.

(** The applications table and reversion's version table, newest version
    first. *)
Record Database : Type := {
  rows : Table;
  versions : list Version.t
}.

(** The revision block that the decorator of [save] opens is either the
    outermost one (the revision is then written when [save] returns, at
    the time [now], and nothing in [save] gives it a user), or it lies
    inside a block that a caller has opened (the revision is then written
    when that block ends, after [save] has returned). *)
Module RevisionBlock.
Inductive t : Type :=
  | Outermost (now : Z)
  | Enclosed.
End RevisionBlock.

(** [reversion.get_for_object(obj)]: the versions of [obj], newest first.
    For an object whose primary key is still [None] the lookup fails with
    a [TypeError] (the comment in [get_version_count]); for a saved object
    without versions it is an empty sequence (the [IndexError] handled in
    [get_latest_version]). *)
Definition get_for_object (db : Database) (obj : Application)
    : result (list Version.t) :=
  match pk obj with
  | None => Raise TypeError
  | Some k => Ok (filter (λ v, Version.object_id v = k) (versions db))
  end.

(** [seq[0]]. *)
Definition getitem0 {A} (l : list A) : result A :=
  match l with
  | x :: _ => Ok x
  | [] => Raise IndexError
  end.

(** [d[k]] on a dict. *)
Definition dict_getitem {V} (d : gmap Z V) (k : Z) : result V :=
  match d !! k with
  | Some v => Ok v
  | None => Raise KeyError
  end.

(** ** Accessors *)

Definition LABELMAKER : gmap Z string :=
  <[PENDING := "-primary"%string]>
  (<[QUESTION := "-warning"%string]>
  (<[APPROVED := "-success"%string]>
  (<[NOT_APPROVED := "-danger"%string]> ∅))).

Definition get_bootstrap_class (self : Application) : result (option string) :=
  try_except
    (v ← dict_getitem LABELMAKER (status self); Ok (Some v))
    [KeyError]
    (Ok None).

Definition get_version_count (db : Database) (self : Application)
    : result (option Z) :=
  try_except
    (l ← get_for_object db self; Ok (Some (Z.of_nat (length l))))
    [TypeError]
    (Ok None).

Definition get_latest_version (db : Database) (self : Application)
    : result (option Version.t) :=
  try_except
    (l ← get_for_object db self; v ← getitem0 l; Ok (Some v))
    [TypeError; IndexError]
    (Ok None).

Definition get_latest_revision (db : Database) (self : Application)
    : result (option Revision.t) :=
  version ← get_latest_version db self;
  if truthy version
  then Ok (Version.revision <$> version)
  else Ok None.

Definition get_latest_reviewer (db : Database) (self : Application)
    : result (option Z) :=
  revision ← get_latest_revision db self;
  if truthy revision
  then Ok (revision ≫= Revision.user)
  else Ok None.

Definition get_latest_review_date (db : Database) (self : Application)
    : result (option Z) :=
  revision ← get_latest_revision db self;
  if truthy revision
  then Ok (Revision.date_created <$> revision)
  else Ok None.

Definition get_num_days_open (today : date) (self : Application) : result Z :=
  if py_in (status self) [PENDING; QUESTION]
  then date_sub (Some today) (date_created self)
  else
    if py_in (status self) [APPROVED; NOT_APPROVED]
    then date_sub (date_closed self) (date_created self)
    else Raise AssertionError.

Definition is_probably_expired (today : date) (self : Application) : bool :=
  match earliest_expiry_date self with
  | Some e => if bool_decide (e ≤ today) then true else false
  | None => false
  end.

Definition get_num_days_since_expiration (today : date) (self : Application)
    : option Z :=
  match earliest_expiry_date self with
  | Some e => if bool_decide (e ≤ today) then Some (days_between today e) else None
  | None => None
  end.

Definition get_num_days_until_expiration (today : date) (self : Application)
    : option Z :=
  match earliest_expiry_date self with
  | Some e => if bool_decide (e > today) then Some (days_between e today) else None
  | None => None
  end.

(** ** Methods that assign attributes: a state and exception monad

    The state is the in-memory object together with the database.  When
    a step raises, the state reached so far is kept. *)

Definition World : Type := Application * Database.

Definition M (A : Type) : Type := World → result A * World.

#[global] Instance M_ret : MRet M := λ A a w, (Ok a, w).
#[global] Instance M_bind : MBind M := λ A B f m w,
  match m w with
  | (Ok a, w') => f a w'
  | (Raise e, w') => (Raise e, w')
  end.

(** Read [self]. *)
Definition this : M Application := λ w, (Ok w.1, w).

(** Call a method that does not assign anything. *)
Definition call {A} (f : Database → Application → result A) : M A :=
  λ w, (f w.2 w.1, w).

(** Evaluate an expression that may raise. *)
Definition eval {A} (r : result A) : M A := λ w, (r, w).

(** [self.attr = v]. *)
Definition setattr (f : Application → Application) : M unit :=
  λ w, (Ok tt, (f w.1, w.2)).

(** [count >= 2] where [count] may be [None].  The module is Python 2
    code, where [None] orders below every integer, so the comparison is
    false for [None]; the comment in [save] relies on it ("this block
    executes if count == 1 and also if count == None"). *)
Definition ge_2 (count : option Z) : bool :=
  match count with
  | Some n => bool_decide (2 ≤ n)
  | None => false
  end.

(** [version.field_dict['status']]; on [None] attribute access fails. *)
Definition field_dict_status (version : option Version.t) : result Z :=
  match version with
  | Some v => Ok (status (Version.field_dict v))
  | None => Raise AttributeError
  end.

(** The key that the database gives to a row inserted without one. *)
Definition fresh_pk (db : Database) : Z :=
  1 + set_fold Z.max 0 (keys (rows db)).

(** Django's [Model.save] for this model.  An object whose key has a row
    is updated as it is.  An object without key, or whose key has no row,
    is inserted: [auto_now_add] first assigns today to [date_created], in
    memory, and the insertion assigns the key.  The database may refuse
    either write; the exception then propagates, the table is unchanged
    and no key is assigned. *)
Definition Model_save (today : date) : M unit := λ w,
  let db := w.2 in
  let update :=
    match write_error (rows db) false w.1 with
    | Some e => (Raise e, w)
    | None => (Ok tt, w)
    end in
  let insert (k : Z) :=
    let obj := set_date_created (Some today) w.1 in
    match write_error (rows db) true obj with
    | Some e => (Raise e, (obj, db))
    | None =>
        (Ok tt, (set_pk (Some k) obj,
                 {| rows := add_key k (rows db); versions := versions db |}))
    end in
  match pk w.1 with
  | Some k => if bool_decide (k ∈ rows db) then update else insert k
  | None => insert (fresh_pk db)
  end.

(** The body of [save] (the statements of the method, down to the call of
    the parent's [save]). *)
Definition save_body (today : date) : M unit :=
  version ← call get_latest_version;
  count ← call get_version_count;
  (if ge_2 count then
     orig_status ← eval (field_dict_status version);
     self ← this;
     if py_in orig_status [PENDING; QUESTION]
        && py_in (status self) [APPROVED; NOT_APPROVED]
        && negb (truthy (date_closed self))
     then
       setattr (set_date_closed (Some today));;
       self ← this;
       n ← eval (date_sub (Some today) (date_created self));
       setattr (set_days_open (Some n))
     else mret tt
   else
     self ← this;
     if py_in (status self) [APPROVED; NOT_APPROVED]
        && negb (truthy (date_closed self))
     then
       setattr (set_date_closed (Some today));;
       setattr (set_days_open (Some 0))
     else mret tt);;
  self ← this;
  match date_closed self, earliest_expiry_date self with
  | Some d, None =>
      e ← eval (date_add d (access_grant_term (partner self)));
      setattr (set_earliest_expiry_date (Some e))
  | _, _ => mret tt
  end;;
  Model_save today.

(** The version that the revision of a save stores for the object: its
    field values, under a revision without user. *)
Definition version_of (now : Z) (obj : Application) (k : Z) : Version.t :=
  {| Version.object_id := k; Version.field_dict := obj;
     Version.revision := {| Revision.user := None;
                            Revision.date_created := now |} |}.

(** [@reversion.create_revision()].  When the wrapped call raises, the
    revision is dropped.  When it returns and its block is the outermost
    one, a version of the saved object is stored; inside an enclosing
    block nothing is stored by the time the call returns (the versions are
    written when the enclosing block ends, which is outside [save]).  The
    write of the version itself is taken to succeed: the statements below
    are about the object in memory, or assume that [save] returns. *)
Definition create_revision (ctx : RevisionBlock.t) (body : M unit)
    : M unit := λ w,
  match body w with
  | (Ok tt, (obj, db)) =>
      match ctx, pk obj with
      | RevisionBlock.Outermost now, Some k =>
          (Ok tt, (obj, {| rows := rows db;
                           versions := version_of now obj k :: versions db |}))
      | _, _ => (Ok tt, (obj, db))
      end
  | (Raise e, w') => (Raise e, w')
  end.

Definition save (today : date) (ctx : RevisionBlock.t) : M unit :=
  create_revision ctx (save_body today).

(** The in-memory object after a call of [save], whether the call
    returned or raised. *)
Definition after_save (today : date) (ctx : RevisionBlock.t) (db : Database)
    (self : Application) : Application :=
  (save today ctx (self, db)).2.1.

Definition save_outcome (today : date) (ctx : RevisionBlock.t)
    (db : Database) (self : Application) : result unit :=
  (save today ctx (self, db)).1.

(** * Vocabulary of the statements *)

(** [wp m Q w]: running [m] from [w] ends, with a value or an exception,
    in a result and a state that satisfy [Q]. *)
Definition wp {A} (m : M A) (Q : result A → World → Prop) (w : World) : Prop :=
  Q (m w).1 (m w).2.

(** The versions of an object, as the accessors see them. *)
Definition history (db : Database) (self : Application) : list Version.t :=
  match get_for_object db self with
  | Ok l => l
  | Raise _ => []
  end.

(** No version of the object is stored. *)
Definition no_snapshots (db : Database) (self : Application) : Prop :=
  ∀ v, v ∈ versions db → pk self ≠ Some (Version.object_id v).

(** What a caller may do to an object between two saves: anything that
    leaves the three derived fields alone (their help text: "Do not
    override this field!"). *)
Definition same_derived (a a' : Application) : Prop :=
  date_closed a' = date_closed a ∧
  days_open a' = days_open a ∧
  earliest_expiry_date a' = earliest_expiry_date a.

(** The objects the save logic can produce: a new object has no derived
    field; callers edit the other fields; [save] runs at any date, against
    any database, and the object is what the call leaves in memory,
    whether it returned or raised.  [ok] restricts the partners with which
    [save] is called. *)
Inductive reachable (ok : Partner → Prop) : Application → Prop :=
  | reachable_new a :
      date_closed a = None → days_open a = None →
      earliest_expiry_date a = None →
      reachable ok a
  | reachable_edit a a' :
      reachable ok a → same_derived a a' → reachable ok a'
  | reachable_save a today ctx db :
      reachable ok a → ok (partner a) →
      reachable ok (after_save today ctx db a).

(** The fields that only callers assign have the same values in both
    objects. *)
Definition same_caller_fields (a a' : Application) : Prop :=
  status a' = status a ∧ editor a' = editor a ∧ partner a' = partner a ∧
  rationale a' = rationale a ∧ specific_title a' = specific_title a ∧
  specific_stream a' = specific_stream a ∧ comments a' = comments a ∧
  agreement_with_terms_of_use a' = agreement_with_terms_of_use a.

(** [self.status = v], as a reviewer does before saving. *)
Definition set_status (v : Z) (a : Application) : Application :=
  {| pk := pk a; status := v; date_created := date_created a;
     date_closed := date_closed a; days_open := days_open a;
     earliest_expiry_date := earliest_expiry_date a; editor := editor a;
     partner := partner a; rationale := rationale a;
     specific_title := specific_title a;
     specific_stream := specific_stream a; comments := comments a;
     agreement_with_terms_of_use := agreement_with_terms_of_use a |}.

(** The database that a call of [save] leaves, whether the call returned
    or raised. *)
Definition database_after_save (today : date) (ctx : RevisionBlock.t)
    (db : Database) (self : Application) : Database :=
  (save today ctx (self, db)).2.2.

(** ** Sample data *)

Definition sample_partner (term : timedelta) : Partner :=
  {| partner_id := 1; access_grant_term := term |}.

Definition sample_application (key : option Z) (st : Z)
    (created closed : option date) (open_days : option Z)
    (expiry : option date) (term : timedelta) : Application :=
  {| pk := key; status := st; date_created := created;
     date_closed := closed; days_open := open_days;
     earliest_expiry_date := expiry; editor := 7;
     partner := sample_partner term; rationale := "research";
     specific_title := ""; specific_stream := None; comments := "";
     agreement_with_terms_of_use := true |}.

Definition sample_meta : Revision.t :=
  {| Revision.user := Some 3; Revision.date_created := 1700000000 |}.

(** The version stored by a save of application [key] in status [st]. *)
Definition sample_version (key : Z) (st : Z) (created : date) : Version.t :=
  {| Version.object_id := key;
     Version.field_dict :=
       sample_application (Some key) st (Some created) None None None 365;
     Version.revision := sample_meta |}.

(** A save that opens the outermost revision block. *)
Definition sample_block : RevisionBlock.t :=
  RevisionBlock.Outermost 1700000000.

(** The database refuses a row without [date_created] (the column is NOT
    NULL) and accepts every other row. *)
Definition sample_constraints (adding : bool) (obj : Application)
    : option exn :=
  match date_created obj with
  | Some _ => None
  | None => Some IntegrityError
  end.

Definition empty_database : Database :=
  {| rows := {| keys := ∅; write_error := sample_constraints |};
     versions := [] |}.

(** Application 1 has a row and the given versions. *)
Definition sample_database (vs : list Version.t) : Database :=
  {| rows := {| keys := {[1]}; write_error := sample_constraints |};
     versions := vs |}.

(** * Reasoning about the monad *)

Section wp_rules.
Context {A B : Type}.

Lemma wp_bind (m : M A) (f : A → M B) Q w :
  wp m (λ r w', match r with
                | Ok a => wp (f a) Q w'
                | Raise e => Q (Raise e) w'
                end) w →
  wp (m ≫= f) Q w.
Proof.
  unfold wp, mbind, M_bind. destruct (m w) as [[a|e] w']; cbn; auto.
Qed.

Lemma wp_ret (a : A) Q w : Q (Ok a) w → wp (mret a) Q w.
Proof. auto. Qed.

Lemma wp_call (f : Database → Application → result A) Q w :
  Q (f w.2 w.1) w → wp (call f) Q w.
Proof. auto. Qed.

Lemma wp_eval (r : result A) Q w : Q r w → wp (eval r) Q w.
Proof. auto. Qed.
End wp_rules.

Lemma wp_this Q w : Q (Ok w.1) w → wp this Q w.
Proof. auto. Qed.

Lemma wp_setattr f Q w : Q (Ok tt) (f w.1, w.2) → wp (setattr f) Q w.
Proof. auto. Qed.

(** The parent's [save] touches none of the derived fields nor the
    status and the partner; it leaves the object as it is when it updates
    a row, fills [date_created] when it inserts one, and assigns a key when
    it returns. *)
Lemma wp_Model_save today Q (w : World) :
  (∀ r obj db',
     (r = Ok tt → pk obj ≠ None) →
     status obj = status w.1 →
     date_closed obj = date_closed w.1 →
     days_open obj = days_open w.1 →
     earliest_expiry_date obj = earliest_expiry_date w.1 →
     partner obj = partner w.1 →
     ((∃ k, pk w.1 = Some k ∧ k ∈ rows w.2) → obj = w.1) →
     ((∀ k, pk w.1 = Some k → k ∉ rows w.2) →
        date_created obj = Some today) →
     Q r (obj, db')) →
  wp (Model_save today) Q w.
Proof.
  intros H. unfold wp, Model_save. destruct w as [self db]; cbn [fst snd].
  destruct (pk self) as [k|] eqn:Hpk; [case_bool_decide as Hk|].
  - destruct (write_error (rows db) false self); cbn [fst snd];
      apply H; cbn; rewrite ?Hpk; try done.
    all: intros Hno; exfalso; by apply (Hno k).
  - destruct (write_error (rows db) true _); cbn [fst snd];
      apply H; cbn; rewrite ?Hpk; try done.
    all: intros (k' & ? & ?); congruence.
  - destruct (write_error (rows db) true _); cbn [fst snd];
      apply H; cbn; rewrite ?Hpk; try done.
    all: intros (k' & ? & ?); congruence.
Qed.

(** Storing the version changes neither the outcome nor the object. *)
Lemma wp_create_revision ctx body (Q : result unit → Application → Prop) w :
  wp body (λ r w', Q r w'.1) w →
  wp (create_revision ctx body) (λ r w', Q r w'.1) w.
Proof.
  unfold wp, create_revision.
  destruct (body w) as [[[]|e] [obj db]]; cbn [fst snd]; auto.
  destruct ctx, (pk obj); auto.
Qed.

Lemma save_wp today ctx db self (Q : result unit → Application → Prop) :
  wp (save_body today) (λ r w', Q r w'.1) (self, db) →
  Q (save_outcome today ctx db self) (after_save today ctx db self).
Proof.
  intros H. apply (wp_create_revision ctx) in H. exact H.
Qed.

(** [wp_go] runs the straight-line steps; [wp_case] splits on the
    condition, the matched value or the result in front. *)
Ltac fields :=
  cbn [fst snd pk status date_created date_closed days_open
       earliest_expiry_date partner set_pk set_date_created set_date_closed
       set_days_open set_earliest_expiry_date].

Ltac wp_go :=
  fields;
  repeat (lazymatch goal with
          | |- wp (mbind _ _) _ _ => apply wp_bind
          | |- wp (mret _) _ _ => apply wp_ret
          | |- wp (call _) _ _ => apply wp_call
          | |- wp (eval _) _ _ => apply wp_eval
          | |- wp this _ _ => apply wp_this
          | |- wp (setattr _) _ _ => apply wp_setattr
          | |- wp (Model_save _) _ _ =>
              apply wp_Model_save; fields; intros
          end;
          fields).

Ltac wp_case :=
  lazymatch goal with
  | |- wp (if ?c then _ else _) _ _ => destruct c eqn:?
  | |- wp (match ?c with _ => _ end) _ _ => destruct c eqn:?
  | |- match ?r with Ok _ => _ | Raise _ => _ end => destruct r eqn:?
  end;
  fields.

Ltac wp_step := progress wp_go || wp_case.

Ltac save_start :=
  match goal with
  | |- context [after_save ?t ?m ?d ?s] =>
      pattern (save_outcome t m d s), (after_save t m d s);
      apply save_wp; unfold save_body, field_dict_status
  | |- context [save_outcome ?t ?m ?d ?s] =>
      pattern (save_outcome t m d s), (after_save t m d s);
      apply save_wp; unfold save_body, field_dict_status
  end.

(** ** Facts about the helpers *)

Lemma truthy_true {A} (o : option A) : truthy o = true ↔ o ≠ None.
Proof. destruct o; cbn; split; congruence. Qed.

Lemma truthy_false {A} (o : option A) : truthy o = false ↔ o = None.
Proof. destruct o; cbn; split; congruence. Qed.

Lemma py_in_open s :
  py_in s [PENDING; QUESTION] = true ↔ s = PENDING ∨ s = QUESTION.
Proof.
  unfold py_in. rewrite bool_decide_eq_true, !elem_of_cons, elem_of_nil.
  tauto.
Qed.

Lemma py_in_closed s :
  py_in s [APPROVED; NOT_APPROVED] = true ↔ s = APPROVED ∨ s = NOT_APPROVED.
Proof.
  unfold py_in. rewrite bool_decide_eq_true, !elem_of_cons, elem_of_nil.
  tauto.
Qed.

Lemma date_add_Ok d t e :
  date_add d t = Ok e ↔ e = d + t ∧ date_in_range (d + t).
Proof.
  unfold date_add. destruct (decide (date_in_range (d + t))); split.
  - intros [= <-]. done.
  - by intros [-> _].
  - done.
  - by intros [_ ?].
Qed.

Lemma date_add_Raise d t x :
  date_add d t = Raise x ↔ x = OverflowError ∧ ¬ date_in_range (d + t).
Proof.
  unfold date_add. destruct (decide (date_in_range (d + t))); split.
  - done.
  - by intros [_ ?].
  - intros [= <-]. done.
  - by intros [-> _].
Qed.

Lemma get_latest_version_history db self :
  get_latest_version db self = Ok (head (history db self)).
Proof.
  unfold get_latest_version, history, get_for_object.
  destruct (pk self); [|reflexivity].
  cbn. destruct (filter _ _); reflexivity.
Qed.

Lemma get_version_count_history db self :
  get_version_count db self =
  Ok (match pk self with
      | Some _ => Some (Z.of_nat (length (history db self)))
      | None => None
      end).
Proof.
  unfold get_version_count, history, get_for_object.
  destruct (pk self); reflexivity.
Qed.

Lemma ge_2_length {A} (l : list A) :
  ge_2 (Some (Z.of_nat (length l))) =
  match l with
  | _ :: _ :: _ => true
  | _ => false
  end.
Proof.
  unfold ge_2. destruct l as [|x [|y l]]; cbn [length];
    case_bool_decide; try reflexivity; lia.
Qed.

(** The two queries of [save] never raise, and agree with each other. *)
Lemma accessors_cases db self :
  (∃ count ov, get_version_count db self = Ok count ∧ ge_2 count = false ∧
               get_latest_version db self = Ok ov) ∨
  (∃ count v, get_version_count db self = Ok count ∧ ge_2 count = true ∧
              get_latest_version db self = Ok (Some v)).
Proof.
  rewrite get_version_count_history, get_latest_version_history.
  destruct (pk self) as [k|].
  - destruct (history db self) as [|v [|v2 vs]] eqn:Hh.
    + left. do 2 eexists. split_and!; try reflexivity.
    + left. do 2 eexists. split_and!; try reflexivity.
    + right. do 2 eexists. split_and!; try reflexivity. apply ge_2_length.
  - left. do 2 eexists. split_and!; reflexivity.
Qed.

Lemma date_sub_Raise a b x :
  date_sub (Some a) b = Raise x ↔ x = TypeError ∧ b = None.
Proof.
  destruct b; cbn; split; try done.
  - by intros [_ ?].
  - by intros [= <-].
  - by intros [-> _].
Qed.

Ltac bool_hyps :=
  repeat match goal with
  | H : _ && _ = true |- _ => apply andb_true_iff in H; destruct H
  | H : negb _ = true |- _ => apply negb_true_iff in H
  | H : negb _ = false |- _ => apply negb_false_iff in H
  | H : truthy _ = true |- _ => apply truthy_true in H
  | H : truthy _ = false |- _ => apply truthy_false in H
  | H : py_in _ [PENDING; QUESTION] = true |- _ => apply py_in_open in H
  | H : py_in _ [APPROVED; NOT_APPROVED] = true |- _ => apply py_in_closed in H
  | H : date_add _ _ = Ok _ |- _ => apply date_add_Ok in H; destruct H
  | H : date_add _ _ = Raise _ |- _ => apply date_add_Raise in H; destruct H
  | H : date_sub (Some _) _ = Raise _ |- _ =>
      apply date_sub_Raise in H; destruct H
  end.

Ltac wp_run :=
  repeat wp_step; bool_hyps; cbn in *; bool_hyps; simplify_eq/=.

(** Start a proof about [save] on an arbitrary database: split on which
    branch the version count selects. *)
Ltac save_any db self :=
  let count := fresh "count" in
  let ov := fresh "ov" in
  let Hcount := fresh "Hcount" in
  let Hge := fresh "Hge" in
  let Hversion := fresh "Hversion" in
  destruct (accessors_cases db self)
    as [(count & ov & Hcount & Hge & Hversion)
       |(count & ov & Hcount & Hge & Hversion)];
  save_start; wp_go; rewrite Hversion; wp_go; rewrite Hcount; wp_go;
  rewrite Hge.

(** ** What [save] keeps *)

Lemma save_keeps_date_closed today ctx db self d :
  date_closed self = Some d →
  date_closed (after_save today ctx db self) = Some d.
Proof. intros H. save_any db self; wp_run; congruence. Qed.

Lemma save_keeps_earliest_expiry_date today ctx db self e :
  earliest_expiry_date self = Some e →
  earliest_expiry_date (after_save today ctx db self) = Some e.
Proof. intros H. save_any db self; wp_run; congruence. Qed.

Lemma save_keeps_days_open today ctx db self :
  date_closed self ≠ None →
  days_open (after_save today ctx db self) = days_open self.
Proof. intros H. save_any db self; wp_run; congruence. Qed.

Lemma save_days_open_with_date_closed today ctx db self :
  (days_open self ≠ None → date_closed self ≠ None) →
  days_open (after_save today ctx db self) ≠ None →
  date_closed (after_save today ctx db self) ≠ None.
Proof. intros H. save_any db self; wp_run; try congruence. all: intuition congruence. Qed.

(** An expiry date is only ever computed from the closing date and the
    partner's term of that call. *)
Lemma save_expiry_origin today ctx db self e :
  earliest_expiry_date (after_save today ctx db self) = Some e →
  earliest_expiry_date self = Some e ∨
  ∃ d, date_closed (after_save today ctx db self) = Some d ∧
       e = d + access_grant_term (partner self).
Proof.
  save_any db self; wp_run; intros; simplify_eq; eauto.
  all: try (left; congruence).
  all: right; eexists;
    (split; [first [eassumption | etrans; eassumption] | congruence]).
Qed.

(** ** Invariants of the reachable objects *)

Lemma reachable_days_open_closed ok self :
  reachable ok self → days_open self ≠ None → date_closed self ≠ None.
Proof.
  induction 1 as [a Hc Hd He|a a' Ha IH (Hc & Hd & He)|a today ctx db Ha IH Hok].
  - congruence.
  - rewrite Hc, Hd. exact IH.
  - by apply save_days_open_with_date_closed.
Qed.

Lemma reachable_expiry_after_closure self :
  reachable (λ p, 0 ≤ access_grant_term p) self →
  ∀ e, earliest_expiry_date self = Some e →
  ∃ d, date_closed self = Some d ∧ d ≤ e.
Proof.
  induction 1 as [a Hc Hd He|a a' Ha IH (Hc & Hd & He)|a today ctx db Ha IH Hok];
    intros e Hexp.
  - congruence.
  - rewrite Hc. apply IH. congruence.
  - destruct (save_expiry_origin _ _ _ _ _ Hexp) as [Hold|(d & Hd & ->)].
    + destruct (IH e Hold) as (d & Hd & Hle).
      exists d. split; [|done]. by apply save_keeps_date_closed.
    + exists d. split; [done|lia].
Qed.

(** Below two versions [save] reads nothing of the version table. *)
Lemma save_first_branch_ignores_versions today ctx db db2 self c c2 :
  get_version_count db self = Ok c → ge_2 c = false →
  get_version_count db2 self = Ok c2 → ge_2 c2 = false →
  rows db2 = rows db →
  after_save today ctx db2 self = after_save today ctx db self ∧
  save_outcome today ctx db2 self = save_outcome today ctx db self.
Proof.
  intros Hc Hge Hc2 Hge2 Hrows.
  destruct db as [r vs], db2 as [r2 vs2]. cbn in Hrows. subst r2.
  unfold after_save, save_outcome, save, create_revision, save_body.
  unfold call, eval, this, setattr, mbind, M_bind, mret, M_ret.
  cbn [fst snd].
  rewrite !get_latest_version_history, Hc, Hc2, Hge, Hge2.
  unfold Model_save, fresh_pk. clear Hc Hc2.
  destruct self as [k st created closed n expiry ? p ? ? ? ? ?].
  cbn [fst snd rows]; fields.
  destruct (py_in st [APPROVED; NOT_APPROVED]), closed, expiry;
    cbn [truthy negb andb fst snd]; fields;
    try destruct (date_add _ _); cbn [fst snd]; fields;
    destruct k; cbn; try destruct (bool_decide _); cbn;
    try destruct (write_error r _ _); cbn; destruct ctx; done.
Qed.

(** * The closure derivation of [save] *)

(** C1 (code bug): the claim covers every save with at least one prior
    version, but [save] enters the history branch only from two versions
    on (count >= 2).  In the ordinary course - an application saved once
    as PENDING on day 738000, then set to APPROVED and saved on day
    738010 - the call returns with [date_closed] = today and [days_open]
    = 0, whereas today - [date_created] is 10: that is what
    [get_num_days_open] returns on the saved object, and what the same
    call stores when the history holds one more version. *)
Lemma save_one_version_days_open :
  let db := sample_database [sample_version 1 PENDING 738000] in
  let self :=
    sample_application (Some 1) APPROVED (Some 738000) None None None 365 in
  get_version_count db self = Ok (Some 1) ∧
  get_latest_version db self = Ok (Some (sample_version 1 PENDING 738000)) ∧
  status (Version.field_dict (sample_version 1 PENDING 738000)) = PENDING ∧
  status self = APPROVED ∧
  date_closed self = None ∧
  date_created self = Some 738000 ∧
  save_outcome 738010 sample_block db self = Ok tt ∧
  date_closed (after_save 738010 sample_block db self) = Some 738010 ∧
  days_open (after_save 738010 sample_block db self) = Some 0 ∧
  738010 - 738000 = 10 ∧
  get_num_days_open 738010 (after_save 738010 sample_block db self) = Ok 10 ∧
  days_open
    (after_save 738010 sample_block
       (sample_database [sample_version 1 PENDING 738000;
                         sample_version 1 PENDING 738000]) self) = Some 10.
Proof. vm_compute. split_and!; reflexivity. Qed.

(** X20: on a save for which at least two prior versions exist, if the
    most recent prior version's status was open (PENDING or QUESTION), the
    current status is closed (APPROVED or NOT_APPROVED) and [date_closed]
    is not set, then the call leaves [date_closed] = today and [days_open]
    = today - [date_created]. *)
Theorem save_closes_after_two_versions today ctx db self n v created :
  get_version_count db self = Ok (Some n) → 2 ≤ n →
  get_latest_version db self = Ok (Some v) →
  status (Version.field_dict v) = PENDING ∨
    status (Version.field_dict v) = QUESTION →
  status self = APPROVED ∨ status self = NOT_APPROVED →
  date_closed self = None →
  date_created self = Some created →
  date_closed (after_save today ctx db self) = Some today ∧
  days_open (after_save today ctx db self) = Some (today - created).
Proof.
  intros Hcount Hn Hversion Hprev Hcur Hclosed Hcreated.
  apply py_in_open in Hprev. apply py_in_closed in Hcur.
  save_start. wp_go. rewrite Hversion. wp_go. rewrite Hcount. wp_go.
  cbn [ge_2]. rewrite bool_decide_eq_true_2 by done.
  wp_go. rewrite Hprev, Hcur, Hclosed. cbn [truthy negb andb].
  wp_go. rewrite Hcreated. cbn [date_sub]. unfold days_between.
  wp_run; split; first [done|congruence].
Qed.

Lemma save_closes_after_two_versions_witness :
  let db := sample_database [sample_version 1 QUESTION 738000;
                             sample_version 1 PENDING 738000] in
  let self :=
    sample_application (Some 1) APPROVED (Some 738000) None None None 365 in
  date_closed (after_save 738010 sample_block db self) = Some 738010 ∧
  days_open (after_save 738010 sample_block db self) = Some 10.
Proof.
  intros db self.
  apply (save_closes_after_two_versions 738010 sample_block db self 2
           (sample_version 1 QUESTION 738000) 738000).
  - vm_compute. reflexivity.
  - lia.
  - vm_compute. reflexivity.
  - right. reflexivity.
  - left. reflexivity.
  - reflexivity.
  - reflexivity.
Defined.

(** C2: on a save of an application whose version count is exactly 1,
    [save] takes the first-save branch: if the current status is closed and
    [date_closed] is unset, [date_closed] becomes today and [days_open]
    becomes 0 (not today - [date_created]), otherwise both stay as they
    are; and the prior snapshot is not consulted: against any other
    database with the same rows in which the count is also 1, whatever its
    snapshot holds, the call ends in the same object with the same
    outcome. *)
Theorem save_with_one_version today ctx db self :
  get_version_count db self = Ok (Some 1) →
  (status self = APPROVED ∨ status self = NOT_APPROVED →
   date_closed self = None →
   date_closed (after_save today ctx db self) = Some today ∧
   days_open (after_save today ctx db self) = Some 0) ∧
  (¬ (status self = APPROVED ∨ status self = NOT_APPROVED) ∨
   date_closed self ≠ None →
   date_closed (after_save today ctx db self) = date_closed self ∧
   days_open (after_save today ctx db self) = days_open self) ∧
  (∀ db2, rows db2 = rows db →
     get_version_count db2 self = Ok (Some 1) →
     after_save today ctx db2 self = after_save today ctx db self ∧
     save_outcome today ctx db2 self = save_outcome today ctx db self).
Proof.
  intros Hcount. split_and!.
  - intros Hcur Hclosed. apply py_in_closed in Hcur.
    save_start. wp_go. rewrite get_latest_version_history. wp_go.
    rewrite Hcount. wp_go. cbn [ge_2].
    rewrite bool_decide_eq_false_2 by lia.
    wp_go. rewrite Hcur, Hclosed. cbn [truthy negb andb].
    wp_run; split; congruence.
  - intros Hno.
    save_start. wp_go. rewrite get_latest_version_history. wp_go.
    rewrite Hcount. wp_go. cbn [ge_2].
    rewrite bool_decide_eq_false_2 by lia.
    wp_run; try (split; congruence).
    all: destruct Hno; congruence.
  - intros db2 Hrows Hcount2.
    by apply (save_first_branch_ignores_versions _ _ _ _ _ (Some 1) (Some 1)).
Qed.

Lemma save_with_one_version_witness :
  let db := sample_database [sample_version 1 PENDING 738000] in
  let self :=
    sample_application (Some 1) APPROVED (Some 738000) None None None 365 in
  date_closed (after_save 738010 sample_block db self) = Some 738010 ∧
  days_open (after_save 738010 sample_block db self) = Some 0.
Proof.
  intros db self.
  apply (save_with_one_version 738010 sample_block db self).
  - vm_compute. reflexivity.
  - left. reflexivity.
  - reflexivity.
Defined.

(** C3: on a first save (no prior version in the revision history), if
    the initial status is closed and [date_closed] is unset, then the call
    leaves [date_closed] = today and [days_open] = 0, and when it returns
    from inserting the record today is the creation date; if the initial
    status is open (and the object carries no closing data), [date_closed]
    and [days_open] remain absent. *)
Theorem first_save_closure today ctx db self :
  get_latest_version db self = Ok None →
  (status self = APPROVED ∨ status self = NOT_APPROVED →
   date_closed self = None →
   date_closed (after_save today ctx db self) = Some today ∧
   days_open (after_save today ctx db self) = Some 0 ∧
   (save_outcome today ctx db self = Ok tt →
    (∀ k, pk self = Some k → k ∉ rows db) →
    date_created (after_save today ctx db self) = Some today)) ∧
  (status self = PENDING ∨ status self = QUESTION →
   date_closed self = None → days_open self = None →
   date_closed (after_save today ctx db self) = None ∧
   days_open (after_save today ctx db self) = None).
Proof.
  intros Hversion.
  assert (∃ count, get_version_count db self = Ok count ∧
                   ge_2 count = false) as (count & Hcount & Hge).
  { destruct (accessors_cases db self)
      as [(c & ov & Hc & Hge & _)|(c & v & _ & _ & Hv)]; [eauto|congruence]. }
  split.
  - intros Hcur Hclosed. apply py_in_closed in Hcur.
    save_start. wp_go. rewrite Hversion. wp_go. rewrite Hcount. wp_go.
    rewrite Hge. wp_go. rewrite Hcur, Hclosed. cbn [truthy negb andb].
    wp_run; split_and!; first [done|congruence|auto].
  - intros Hcur Hclosed Hdays.
    assert (py_in (status self) [APPROVED; NOT_APPROVED] = false) as Hnot.
    { apply not_true_is_false. rewrite py_in_closed.
      unfold PENDING, QUESTION, APPROVED, NOT_APPROVED in *. lia. }
    save_start. wp_go. rewrite Hversion. wp_go. rewrite Hcount. wp_go.
    rewrite Hge. wp_go. rewrite Hnot. cbn [andb]. wp_go.
    rewrite Hclosed. wp_go. split; congruence.
Qed.

Lemma first_save_closure_witness :
  let self := sample_application None APPROVED None None None None 365 in
  date_closed (after_save 738000 sample_block empty_database self)
    = Some 738000 ∧
  days_open (after_save 738000 sample_block empty_database self) = Some 0 ∧
  date_created (after_save 738000 sample_block empty_database self)
    = Some 738000.
Proof.
  intros self.
  destruct (first_save_closure 738000 sample_block empty_database self)
    as [Hclosed _]; [reflexivity|].
  destruct Hclosed as (H1 & H2 & H3); [left; reflexivity|reflexivity|].
  split_and!; [exact H1|exact H2|].
  apply H3; [vm_compute; reflexivity|]. intros k Hk. discriminate Hk.
Defined.

(** * The expiry date and the write-once policy *)





(** C5: saving an application whose [date_closed], [days_open] and
    [earliest_expiry_date] are all set leaves the three unchanged, whether
    the call returns or raises; and along every sequence of saves and
    caller edits of the other fields, a derived field that is set is kept
    by the next save. *)
Theorem derived_fields_write_once :
  (∀ today ctx db self d n e,
     date_closed self = Some d → days_open self = Some n →
     earliest_expiry_date self = Some e →
     date_closed (after_save today ctx db self) = Some d ∧
     days_open (after_save today ctx db self) = Some n ∧
     earliest_expiry_date (after_save today ctx db self) = Some e) ∧
  (∀ self, reachable (λ _, True) self →
     ∀ today ctx db,
       (∀ d, date_closed self = Some d →
          date_closed (after_save today ctx db self) = Some d) ∧
       (∀ n, days_open self = Some n →
          days_open (after_save today ctx db self) = Some n) ∧
       (∀ e, earliest_expiry_date self = Some e →
          earliest_expiry_date (after_save today ctx db self) = Some e)).
Proof.
  split.
  - intros today ctx db self d n e Hd Hn He. split_and!.
    + by apply save_keeps_date_closed.
    + rewrite save_keeps_days_open; congruence.
    + by apply save_keeps_earliest_expiry_date.
  - intros self Hreach today ctx db. split_and!.
    + intros d. apply save_keeps_date_closed.
    + intros n Hn. rewrite save_keeps_days_open; [done|].
      apply (reachable_days_open_closed _ _ Hreach). congruence.
    + intros e. apply save_keeps_earliest_expiry_date.
Qed.

Lemma derived_fields_write_once_witness :
  let closed :=
    sample_application (Some 1) APPROVED (Some 738000) (Some 738010)
      (Some 10) (Some 738375) 30 in
  let db := sample_database [sample_version 1 APPROVED 738000;
                             sample_version 1 PENDING 738000] in
  (date_closed (after_save 738500 sample_block db closed) = Some 738010 ∧
   days_open (after_save 738500 sample_block db closed) = Some 10 ∧
   earliest_expiry_date (after_save 738500 sample_block db closed)
     = Some 738375) ∧
  days_open
    (after_save 738500 sample_block db
       (after_save 738000 sample_block empty_database
          (sample_application None APPROVED None None None None 365)))
    = Some 0.
Proof.
  intros closed db. split.
  - apply (proj1 derived_fields_write_once 738500 sample_block db closed);
      reflexivity.
  - apply (proj2 derived_fields_write_once
             (after_save 738000 sample_block empty_database
                (sample_application None APPROVED None None None None 365))).
    + apply reachable_save; [|exact I].
      apply reachable_new; reflexivity.
    + vm_compute. reflexivity.
Defined.

(** C6 as stated fails: a partner whose [access_grant_term] is a negative
    duration puts the expiry date before the closing date on the first
    save of an application created closed. *)
Lemma expiry_before_closure_counterexample :
  let self :=
    after_save 738000 sample_block empty_database
      (sample_application None APPROVED None None None None (-30)) in
  reachable (λ _, True) self ∧
  date_closed self = Some 738000 ∧
  earliest_expiry_date self = Some 737970 ∧
  ¬ (738000 ≤ 737970).
Proof.
  split_and!.
  - apply reachable_save; [|exact I]. apply reachable_new; reflexivity.
  - vm_compute. reflexivity.
  - vm_compute. reflexivity.
  - lia.
Qed.

(** C6 (as amended): for every application reachable through the save
    logic with partners whose [access_grant_term] is not negative at each
    save, if both [date_closed] and [earliest_expiry_date] are set then
    [date_closed] <= [earliest_expiry_date]. *)
Theorem expiry_not_before_closure self d e :
  reachable (λ p, 0 ≤ access_grant_term p) self →
  date_closed self = Some d →
  earliest_expiry_date self = Some e →
  d ≤ e.
Proof.
  intros Hreach Hd He.
  destruct (reachable_expiry_after_closure _ Hreach e He) as (d' & Hd' & Hle).
  assert (d' = d) by congruence. lia.
Qed.

Lemma expiry_not_before_closure_witness : 738000 ≤ 738365.
Proof.
  apply (expiry_not_before_closure
           (after_save 738000 sample_block empty_database
              (sample_application None APPROVED None None None None 365))).
  - apply reachable_save.
    + apply reachable_new; reflexivity.
    + vm_compute. discriminate.
  - vm_compute. reflexivity.
  - vm_compute. reflexivity.
Defined.

(** * The accessors *)

Lemma no_snapshots_history db self : no_snapshots db self → history db self = [].
Proof.
  unfold no_snapshots, history, get_for_object. intros Hno.
  destruct (pk self) as [k|]; [|reflexivity].
  induction (versions db) as [|v vs IH]; [reflexivity|].
  rewrite filter_cons. case_decide as Hv.
  - exfalso. apply (Hno v); [left|]. by rewrite Hv.
  - apply IH. intros v' Hv'. apply Hno. by right.
Qed.

(** C7 as stated fails for [get_version_count]: for a record that has a
    row but no snapshot the count is 0, not an absence value. *)
Lemma get_version_count_counterexample :
  let self :=
    sample_application (Some 1) PENDING (Some 738000) None None None 365 in
  no_snapshots (sample_database []) self ∧
  get_version_count (sample_database []) self = Ok (Some 0) ∧
  get_version_count (sample_database []) self ≠ Ok None.
Proof.
  split_and!.
  - intros v Hv. by apply elem_of_nil in Hv.
  - reflexivity.
  - discriminate.
Qed.

(** C7 (as amended): when no snapshots exist, none of the history
    accessors raises; [get_latest_version], [get_latest_revision],
    [get_latest_reviewer] and [get_latest_review_date] return None;
    [get_version_count] returns None for a record that was never persisted
    (no primary key) and 0 for a record that has a primary key. *)
Theorem accessors_without_snapshots db self :
  no_snapshots db self →
  get_version_count db self
    = Ok (match pk self with
          | Some _ => Some 0
          | None => None
          end) ∧
  get_latest_version db self = Ok None ∧
  get_latest_revision db self = Ok None ∧
  get_latest_reviewer db self = Ok None ∧
  get_latest_review_date db self = Ok None.
Proof.
  intros Hno. apply no_snapshots_history in Hno.
  assert (get_latest_version db self = Ok None) as Hversion.
  { by rewrite get_latest_version_history, Hno. }
  assert (get_latest_revision db self = Ok None) as Hrevision.
  { unfold get_latest_revision. by rewrite Hversion. }
  split_and!; try done.
  - by rewrite get_version_count_history, Hno.
  - unfold get_latest_reviewer. by rewrite Hrevision.
  - unfold get_latest_review_date. by rewrite Hrevision.
Qed.

Lemma accessors_without_snapshots_witness :
  let self := sample_application None PENDING None None None None 365 in
  let db := sample_database [sample_version 1 PENDING 738000] in
  get_version_count db self = Ok None ∧
  get_latest_version db self = Ok None ∧
  get_latest_revision db self = Ok None ∧
  get_latest_reviewer db self = Ok None ∧
  get_latest_review_date db self = Ok None.
Proof.
  intros self db.
  apply (accessors_without_snapshots db self).
  intros v _. discriminate.
Defined.

(** C8: for an application whose status is one of the four known values,
    [get_num_days_open] returns today - [date_created] in days when the
    status is open, and [date_closed] - [date_created] in days when it is
    closed with [date_closed] set; for any other status it stops on the
    assertion instead of returning a value. *)
Theorem get_num_days_open_spec today self :
  (∀ created,
     status self = PENDING ∨ status self = QUESTION →
     date_created self = Some created →
     get_num_days_open today self = Ok (today - created)) ∧
  (∀ created closed,
     status self = APPROVED ∨ status self = NOT_APPROVED →
     date_created self = Some created →
     date_closed self = Some closed →
     get_num_days_open today self = Ok (closed - created)) ∧
  (status self ∉ [PENDING; QUESTION; APPROVED; NOT_APPROVED] →
   get_num_days_open today self = Raise AssertionError).
Proof.
  unfold get_num_days_open. split_and!.
  - intros created Hopen Hcreated. apply py_in_open in Hopen.
    by rewrite Hopen, Hcreated.
  - intros created closed Hclosed Hcreated Hdate.
    assert (py_in (status self) [PENDING; QUESTION] = false) as ->.
    { apply not_true_is_false. rewrite py_in_open.
      unfold PENDING, QUESTION, APPROVED, NOT_APPROVED in *. lia. }
    apply py_in_closed in Hclosed. by rewrite Hclosed, Hcreated, Hdate.
  - intros Hother. rewrite !elem_of_cons, elem_of_nil in Hother.
    assert (py_in (status self) [PENDING; QUESTION] = false) as ->.
    { apply not_true_is_false. rewrite py_in_open. tauto. }
    assert (py_in (status self) [APPROVED; NOT_APPROVED] = false) as ->.
    { apply not_true_is_false. rewrite py_in_closed. tauto. }
    reflexivity.
Qed.

Lemma get_num_days_open_spec_witness :
  get_num_days_open 738010
    (sample_application (Some 1) QUESTION (Some 738000) None None None 365)
    = Ok 10 ∧
  get_num_days_open 738500
    (sample_application (Some 1) NOT_APPROVED (Some 738000) (Some 738010)
       (Some 10) (Some 738375) 365)
    = Ok 10 ∧
  get_num_days_open 738010
    (sample_application (Some 1) 4 (Some 738000) None None None 365)
    = Raise AssertionError.
Proof.
  split_and!.
  - apply (proj1 (get_num_days_open_spec 738010 _) 738000);
      [right; reflexivity|reflexivity].
  - apply (proj1 (proj2 (get_num_days_open_spec 738500 _)) 738000 738010);
      [right; reflexivity|reflexivity|reflexivity].
  - apply (proj2 (proj2 (get_num_days_open_spec 738010 _))).
    cbn [status sample_application].
    rewrite !elem_of_cons, elem_of_nil.
    unfold PENDING, QUESTION, APPROVED, NOT_APPROVED. lia.
Defined.

(** C9: [is_probably_expired] returns true if and only if
    [earliest_expiry_date] is set and is today or earlier; in particular it
    returns false when the field is absent and when it is strictly in the
    future. *)
Theorem is_probably_expired_spec today self :
  (is_probably_expired today self = true ↔
   ∃ e, earliest_expiry_date self = Some e ∧ e ≤ today) ∧
  (earliest_expiry_date self = None →
   is_probably_expired today self = false) ∧
  (∀ e, earliest_expiry_date self = Some e → today < e →
        is_probably_expired today self = false).
Proof.
  unfold is_probably_expired. split_and!.
  - destruct (earliest_expiry_date self) as [e|].
    + case_bool_decide; split; try done.
      * eauto.
      * intros (e' & [= <-] & Hle). lia.
    + split; [done|]. by intros (e & ? & _).
  - by intros ->.
  - intros e -> Hlt. rewrite bool_decide_eq_false_2 by lia. reflexivity.
Qed.

Lemma is_probably_expired_spec_witness :
  is_probably_expired 738000
    (sample_application (Some 1) APPROVED (Some 737000) (Some 737010)
       (Some 10) None 365) = false ∧
  is_probably_expired 738000
    (sample_application (Some 1) APPROVED (Some 737000) (Some 737010)
       (Some 10) (Some 738001) 365) = false ∧
  is_probably_expired 738000
    (sample_application (Some 1) APPROVED (Some 737000) (Some 737010)
       (Some 10) (Some 738000) 365) = true.
Proof.
  split_and!.
  - apply (proj1 (proj2 (is_probably_expired_spec 738000 _))). reflexivity.
  - apply (proj2 (proj2 (is_probably_expired_spec 738000 _)) 738001);
      [reflexivity|lia].
  - apply (proj1 (is_probably_expired_spec 738000 _)).
    exists 738000. split; [reflexivity|lia].
Defined.

(** C10: [get_bootstrap_class] returns a tag for each of the four statuses
    PENDING, QUESTION, APPROVED and NOT_APPROVED, and None for every other
    status; no exception reaches the caller. *)
Theorem get_bootstrap_class_spec self :
  (status self = PENDING →
   get_bootstrap_class self = Ok (Some "-primary"%string)) ∧
  (status self = QUESTION →
   get_bootstrap_class self = Ok (Some "-warning"%string)) ∧
  (status self = APPROVED →
   get_bootstrap_class self = Ok (Some "-success"%string)) ∧
  (status self = NOT_APPROVED →
   get_bootstrap_class self = Ok (Some "-danger"%string)) ∧
  (status self ∉ [PENDING; QUESTION; APPROVED; NOT_APPROVED] →
   get_bootstrap_class self = Ok None) ∧
  (∃ tag, get_bootstrap_class self = Ok tag).
Proof.
  assert (∀ s, s ∉ [PENDING; QUESTION; APPROVED; NOT_APPROVED] →
               LABELMAKER !! s = None) as Hother.
  { intros s Hs. rewrite !elem_of_cons, elem_of_nil in Hs.
    unfold LABELMAKER.
    rewrite !lookup_insert_ne by (intros <-; tauto).
    apply lookup_empty. }
  unfold get_bootstrap_class, dict_getitem.
  split_and!; try (intros ->; reflexivity).
  - intros Hs. by rewrite (Hother _ Hs).
  - destruct (LABELMAKER !! status self); cbn; eauto.
Qed.

Lemma get_bootstrap_class_spec_witness :
  get_bootstrap_class
    (sample_application None APPROVED None None None None 365)
    = Ok (Some "-success"%string) ∧
  get_bootstrap_class
    (sample_application None 17 None None None None 365) = Ok None.
Proof.
  split.
  - apply (proj1 (proj2 (proj2 (get_bootstrap_class_spec _)))). reflexivity.
  - apply (proj1 (proj2 (proj2 (proj2 (proj2 (get_bootstrap_class_spec _)))))).
    cbn [status sample_application].
    rewrite !elem_of_cons, elem_of_nil.
    unfold PENDING, QUESTION, APPROVED, NOT_APPROVED. lia.
Defined.

(** * Further properties of the accessors *)

(** X1: [get_num_days_since_expiration] returns a value exactly when
    [is_probably_expired] holds; the value is today - [earliest_expiry_date]
    and is never negative. *)
Theorem get_num_days_since_expiration_spec today self :
  (get_num_days_since_expiration today self = None ↔
   is_probably_expired today self = false) ∧
  (∀ n, get_num_days_since_expiration today self = Some n →
        0 ≤ n ∧ earliest_expiry_date self = Some (today - n)).
Proof.
  unfold get_num_days_since_expiration, is_probably_expired, days_between.
  destruct (earliest_expiry_date self) as [e|]; [|done].
  case_bool_decide; split; try done.
  intros n [= <-]. split; [lia|]. f_equal. lia.
Qed.

Lemma get_num_days_since_expiration_spec_witness :
  0 ≤ 30 ∧
  earliest_expiry_date
    (sample_application (Some 1) APPROVED (Some 737000) (Some 737605)
       (Some 605) (Some 737970) 365) = Some (738000 - 30).
Proof.
  apply (proj2 (get_num_days_since_expiration_spec 738000
                  (sample_application (Some 1) APPROVED (Some 737000)
                     (Some 737605) (Some 605) (Some 737970) 365)) 30).
  reflexivity.
Defined.

(** X2: [get_num_days_until_expiration] returns a value exactly when
    [earliest_expiry_date] is set and strictly after today; the value is
    the strictly positive number of days left.  With the date set, exactly
    one of the two counters around the expiry has a value; with the date
    absent, neither has. *)
Theorem get_num_days_until_expiration_spec today self :
  (∀ n, get_num_days_until_expiration today self = Some n ↔
        0 < n ∧ earliest_expiry_date self = Some (today + n)) ∧
  (∀ e, earliest_expiry_date self = Some e →
        (get_num_days_until_expiration today self = None ↔
         get_num_days_since_expiration today self ≠ None)) ∧
  (earliest_expiry_date self = None →
   get_num_days_until_expiration today self = None ∧
   get_num_days_since_expiration today self = None).
Proof.
  unfold get_num_days_until_expiration, get_num_days_since_expiration,
    days_between.
  split_and!.
  - intros n. destruct (earliest_expiry_date self) as [e|].
    + case_bool_decide; split.
      * intros [= <-]. split; [lia|]. f_equal. lia.
      * intros [Hn [= ->]]. f_equal. lia.
      * done.
      * intros [Hn [= ->]]. lia.
    + split; [done|]. by intros [_ ?].
  - intros e ->. do 2 case_bool_decide; split; try done; lia.
  - by intros ->.
Qed.

Lemma get_num_days_until_expiration_spec_witness :
  get_num_days_until_expiration 738000
    (sample_application (Some 1) APPROVED (Some 737000) (Some 737900)
       (Some 900) (Some 738030) 130) = Some 30.
Proof.
  apply (proj1 (get_num_days_until_expiration_spec 738000 _)).
  split; [lia|reflexivity].
Defined.

(** X3: [get_num_days_open] fails with a [TypeError] on a closed
    application whose [date_closed] is not set (the status was assigned but
    the object was not saved since), and on any application of a known
    status whose [date_created] is not set (it was never saved). *)
Theorem get_num_days_open_missing_dates today self :
  (status self = APPROVED ∨ status self = NOT_APPROVED →
   date_closed self = None →
   get_num_days_open today self = Raise TypeError) ∧
  (status self ∈ [PENDING; QUESTION; APPROVED; NOT_APPROVED] →
   date_created self = None →
   get_num_days_open today self = Raise TypeError).
Proof.
  unfold get_num_days_open. split.
  - intros Hclosed Hdate.
    assert (py_in (status self) [PENDING; QUESTION] = false) as ->.
    { apply not_true_is_false. rewrite py_in_open.
      unfold PENDING, QUESTION, APPROVED, NOT_APPROVED in *. lia. }
    apply py_in_closed in Hclosed. by rewrite Hclosed, Hdate.
  - intros Hknown Hcreated. rewrite Hcreated.
    destruct (py_in (status self) [PENDING; QUESTION]) eqn:Hopen; [done|].
    assert (py_in (status self) [APPROVED; NOT_APPROVED] = true) as ->.
    { apply py_in_closed. apply not_true_iff_false in Hopen.
      rewrite py_in_open in Hopen.
      rewrite !elem_of_cons, elem_of_nil in Hknown. tauto. }
    by destruct (date_closed self).
Qed.

Lemma get_num_days_open_missing_dates_witness :
  get_num_days_open 738010
    (sample_application (Some 1) APPROVED (Some 738000) None None None 365)
    = Raise TypeError ∧
  get_num_days_open 738010
    (sample_application None PENDING None None None None 365)
    = Raise TypeError.
Proof.
  split.
  - apply (proj1 (get_num_days_open_missing_dates 738010 _));
      [left|]; reflexivity.
  - apply (proj2 (get_num_days_open_missing_dates 738010 _));
      [|reflexivity].
    cbn [status sample_application]. rewrite !elem_of_cons. by left.
Defined.

(** X4: once an application is closed with [date_closed] set,
    [get_num_days_open] no longer depends on the day it is asked; while the
    application is open, the value grows by one each day. *)
Theorem get_num_days_open_over_time today later self :
  (status self = APPROVED ∨ status self = NOT_APPROVED →
   get_num_days_open later self = get_num_days_open today self) ∧
  (status self = PENDING ∨ status self = QUESTION →
   ∀ n, get_num_days_open today self = Ok n →
        get_num_days_open later self = Ok (n + (later - today))).
Proof.
  unfold get_num_days_open. split.
  - intros Hclosed.
    assert (py_in (status self) [PENDING; QUESTION] = false) as ->.
    { apply not_true_is_false. rewrite py_in_open.
      unfold PENDING, QUESTION, APPROVED, NOT_APPROVED in *. lia. }
    reflexivity.
  - intros Hopen n. apply py_in_open in Hopen. rewrite Hopen.
    destruct (date_created self) as [created|]; [|done].
    cbn [date_sub]. unfold days_between. intros [= <-]. f_equal. lia.
Qed.

Lemma get_num_days_open_over_time_witness :
  get_num_days_open 738020
    (sample_application (Some 1) QUESTION (Some 738000) None None None 365)
  = Ok (10 + (738020 - 738010)).
Proof.
  apply (proj2 (get_num_days_open_over_time 738010 738020 _));
    [right|]; reflexivity.
Defined.

(** X5: the tags of [get_bootstrap_class] all start with a hyphen (the
    template prepends "label", "button", ...), and two known statuses with
    the same tag are the same status. *)
Theorem get_bootstrap_class_tags self other tag :
  get_bootstrap_class self = Ok (Some tag) →
  String.prefix "-" tag = true ∧
  (get_bootstrap_class other = Ok (Some tag) → status other = status self).
Proof.
  unfold get_bootstrap_class, dict_getitem.
  assert (∀ s t, LABELMAKER !! s = Some t →
                 (s = PENDING ∧ t = "-primary"%string) ∨
                 (s = QUESTION ∧ t = "-warning"%string) ∨
                 (s = APPROVED ∧ t = "-success"%string) ∨
                 (s = NOT_APPROVED ∧ t = "-danger"%string)) as Htable.
  { intros s t. unfold LABELMAKER.
    rewrite !lookup_insert, lookup_empty.
    repeat case_decide; subst; try done; intros [= <-]; tauto. }
  destruct (LABELMAKER !! status self) as [t|] eqn:Hself; [|done].
  destruct (LABELMAKER !! status other) as [t'|] eqn:Hother;
    cbn; intros [= ->]; (split; [|intros [= ->]]).
  - destruct (Htable _ _ Hself) as [[_ ->]|[[_ ->]|[[_ ->]|[_ ->]]]];
      reflexivity.
  - destruct (Htable _ _ Hself) as [[-> ->]|[[-> ->]|[[-> ->]|[-> ->]]]];
      destruct (Htable _ _ Hother) as [[-> ?]|[[-> ?]|[[-> ?]|[-> ?]]]];
      done.
  - destruct (Htable _ _ Hself) as [[_ ->]|[[_ ->]|[[_ ->]|[_ ->]]]];
      reflexivity.
Qed.

Lemma get_bootstrap_class_tags_witness :
  String.prefix "-" "-danger" = true ∧
  (get_bootstrap_class
     (sample_application None NOT_APPROVED None None None None 30)
     = Ok (Some "-danger"%string) →
   status (sample_application None NOT_APPROVED None None None None 30)
   = status (sample_application (Some 1) NOT_APPROVED (Some 738000) None
               None None 365)).
Proof.
  apply (get_bootstrap_class_tags
           (sample_application (Some 1) NOT_APPROVED (Some 738000) None
              None None 365)).
  reflexivity.
Defined.

(** * Further properties of the history accessors *)

Lemma head_filter_split {A} (P : A → Prop) `{!∀ x, Decision (P x)}
    (l : list A) (x : A) :
  head (filter P l) = Some x →
  ∃ newer older, l = newer ++ x :: older ∧ P x ∧ ∀ y, y ∈ newer → ¬ P y.
Proof.
  induction l as [|a l IH]; [done|].
  rewrite filter_cons. case_decide as Ha.
  - intros [= ->]. exists [], l. split_and!; [done|done|].
    intros y Hy. by apply elem_of_nil in Hy.
  - intros Hhead. destruct (IH Hhead) as (newer & older & -> & Hx & Hnewer).
    exists (a :: newer), older. split_and!; [done|done|].
    intros y [->|Hy]%elem_of_cons; auto.
Qed.

(** X6: the version that [get_latest_version] returns belongs to this
    object and is the newest such one of the version table: every version
    stored before it in the (newest first) table belongs to another
    object. *)
Theorem get_latest_version_newest db self v :
  get_latest_version db self = Ok (Some v) →
  ∃ newer older,
    versions db = newer ++ v :: older ∧
    pk self = Some (Version.object_id v) ∧
    ∀ v', v' ∈ newer → pk self ≠ Some (Version.object_id v').
Proof.
  rewrite get_latest_version_history. unfold history, get_for_object.
  destruct (pk self) as [k|]; [|done].
  intros [= Hhead].
  destruct (head_filter_split _ _ _ Hhead) as (newer & older & Hl & Hv & Hn).
  exists newer, older. split_and!; [done|by rewrite Hv|].
  intros v' Hv' [= Hk]. by apply (Hn v' Hv').
Qed.

Lemma get_latest_version_newest_witness :
  ∃ newer older,
    versions (sample_database [sample_version 2 APPROVED 737000;
                               sample_version 1 QUESTION 738000;
                               sample_version 1 PENDING 738000])
      = newer ++ sample_version 1 QUESTION 738000 :: older ∧
    pk (sample_application (Some 1) QUESTION (Some 738000) None None None 365)
      = Some (Version.object_id (sample_version 1 QUESTION 738000)) ∧
    ∀ v', v' ∈ newer →
      pk (sample_application (Some 1) QUESTION (Some 738000) None None None
            365) ≠ Some (Version.object_id v').
Proof.
  apply (get_latest_version_newest
           (sample_database [sample_version 2 APPROVED 737000;
                             sample_version 1 QUESTION 738000;
                             sample_version 1 PENDING 738000])).
  vm_compute. reflexivity.
Defined.

(** X7: the two queries of the history agree: [get_latest_version]
    returns None exactly when [get_version_count] returns None or 0, and a
    count is never negative nor larger than the version table. *)
Theorem get_version_count_agrees db self :
  (get_latest_version db self = Ok None ↔
   get_version_count db self = Ok None ∨
   get_version_count db self = Ok (Some 0)) ∧
  (∀ n, get_version_count db self = Ok (Some n) →
        0 ≤ n ≤ Z.of_nat (length (versions db))).
Proof.
  rewrite get_latest_version_history, get_version_count_history.
  split.
  - destruct (pk self) as [k|] eqn:Hpk.
    + destruct (history db self) as [|v l]; cbn [head length]; split.
      * by right.
      * done.
      * done.
      * intros [[=]|[= Hlen]]; lia.
    + rewrite (no_snapshots_history db self); [split; [by left|done]|].
      intros v _. by rewrite Hpk.
  - intros n. destruct (pk self) as [k|] eqn:Hpk; [|done].
    intros [= <-]. split; [lia|].
    unfold history, get_for_object. rewrite Hpk.
    apply inj_le, length_filter.
Qed.

Lemma get_version_count_agrees_witness :
  0 ≤ 2 ≤ Z.of_nat (length (versions
    (sample_database [sample_version 2 APPROVED 737000;
                      sample_version 1 QUESTION 738000;
                      sample_version 1 PENDING 738000]))).
Proof.
  apply (proj2 (get_version_count_agrees
                  (sample_database [sample_version 2 APPROVED 737000;
                                    sample_version 1 QUESTION 738000;
                                    sample_version 1 PENDING 738000])
                  (sample_application (Some 1) QUESTION (Some 738000) None
                     None None 365)) 2).
  vm_compute. reflexivity.
Defined.

(** X8: when a latest version exists, [get_latest_revision],
    [get_latest_reviewer] and [get_latest_review_date] read its revision;
    and [get_latest_review_date] is None only when there is no version,
    whereas [get_latest_reviewer] is also None for a version saved without
    a user. *)
Theorem latest_revision_of_version db self :
  (∀ v, get_latest_version db self = Ok (Some v) →
     get_latest_revision db self = Ok (Some (Version.revision v)) ∧
     get_latest_reviewer db self = Ok (Revision.user (Version.revision v)) ∧
     get_latest_review_date db self
       = Ok (Some (Revision.date_created (Version.revision v)))) ∧
  (get_latest_review_date db self = Ok None ↔
   get_latest_version db self = Ok None) ∧
  (get_latest_reviewer db self = Ok None ↔
   get_latest_version db self = Ok None ∨
   ∃ v, get_latest_version db self = Ok (Some v) ∧
        Revision.user (Version.revision v) = None).
Proof.
  unfold get_latest_review_date, get_latest_reviewer, get_latest_revision.
  rewrite get_latest_version_history.
  destruct (head (history db self)) as [v|]; cbn; split_and!.
  - by intros ? [= <-].
  - split; done.
  - split.
    + intros [= Huser]. right. eauto.
    + intros [[=]|(v' & [= <-] & ->)]. done.
  - done.
  - done.
  - split; [by left|done].
Qed.

Lemma latest_revision_of_version_witness :
  get_latest_revision (sample_database [sample_version 1 QUESTION 738000])
    (sample_application (Some 1) QUESTION (Some 738000) None None None 365)
    = Ok (Some sample_meta) ∧
  get_latest_reviewer (sample_database [sample_version 1 QUESTION 738000])
    (sample_application (Some 1) QUESTION (Some 738000) None None None 365)
    = Ok (Some 3) ∧
  get_latest_review_date (sample_database [sample_version 1 QUESTION 738000])
    (sample_application (Some 1) QUESTION (Some 738000) None None None 365)
    = Ok (Some 1700000000).
Proof.
  apply (proj1 (latest_revision_of_version
                  (sample_database [sample_version 1 QUESTION 738000])
                  (sample_application (Some 1) QUESTION (Some 738000) None
                     None None 365))
           (sample_version 1 QUESTION 738000)).
  vm_compute. reflexivity.
Defined.

(** * Further properties of [save] *)

(** What the parent's [save] does to the object and to the tables. *)
Lemma Model_save_state today self db :
  ∃ r obj db1,
    Model_save today (self, db) = (r, (obj, db1)) ∧
    versions db1 = versions db ∧
    (∀ e, r = Raise e → db1 = db) ∧
    (r = Ok tt →
     ∃ k, pk obj = Some k ∧ k ∈ rows db1 ∧
          (pk self = Some k ∨ pk self = None ∧ k = fresh_pk db)) ∧
    (∀ k, pk self = Some k → pk obj = Some k) ∧
    ((∃ k, pk self = Some k ∧ k ∈ rows db) → obj = self ∧ db1 = db) ∧
    ((∀ k, pk self = Some k → k ∉ rows db) →
       obj = set_pk (pk obj) (set_date_created (Some today) self)) ∧
    same_caller_fields self obj.
Proof.
  unfold Model_save, same_caller_fields. cbn [fst snd].
  assert (∀ k : Z, k ∈ add_key k (rows db)) as Hadd.
  { intros k. unfold elem_of, Table_elem_of, add_key. cbn.
    apply elem_of_union. left. by apply elem_of_singleton. }
  destruct (pk self) as [k|] eqn:Hpk; [case_bool_decide as Hk|];
    [destruct (write_error (rows db) false self) as [e|]
    |destruct (write_error (rows db) true _) as [e|]..];
    eexists _, _, _; (split; [reflexivity|]); cbn; rewrite ?Hpk;
    split_and!; try done.
  all: try (by intros ? [= <-]).
  all: try (intros Hno; exfalso; by apply (Hno k)).
  all: try (intros (k' & ? & ?); by simplify_eq).
  all: try (intros _; unfold set_pk, set_date_created; cbn; by rewrite ?Hpk).
  all: intros _; eexists; split_and!;
    [reflexivity|first [done|apply Hadd]|first [by left|by right]].
Qed.

(** The closure and expiry derivations touch neither the database nor the
    fields that the caller owns.  Either they raise, and [save] stops
    there; or the parent's [save] runs on the derived object, its outcome
    is the outcome of [save], and on return from an outermost block one
    version of the result is put on top of the version table. *)
Lemma save_state today ctx db self :
  let obj := after_save today ctx db self in
  let db' := database_after_save today ctx db self in
  ∃ derived,
    pk derived = pk self ∧ date_created derived = date_created self ∧
    same_caller_fields self derived ∧
    ((∃ e, save_outcome today ctx db self = Raise e ∧
           obj = derived ∧ db' = db) ∨
     (∃ r db1,
        Model_save today (derived, db) = (r, (obj, db1)) ∧
        save_outcome today ctx db self = r ∧
        db' = match r, ctx, pk obj with
              | Ok _, RevisionBlock.Outermost now, Some k =>
                  {| rows := rows db1;
                     versions := version_of now obj k :: versions db1 |}
              | _, _, _ => db1
              end)).
Proof.
  unfold after_save, database_after_save, save_outcome, save, create_revision.
  assert (wp (save_body today)
            (λ r w', ∃ derived,
               pk derived = pk self ∧
               date_created derived = date_created self ∧
               same_caller_fields self derived ∧
               ((∃ e, r = Raise e ∧ w' = (derived, db)) ∨
                Model_save today (derived, db) = (r, w'))) (self, db))
    as Hbody.
  { unfold save_body, field_dict_status. set (parent := Model_save today).
    repeat wp_step.
    all: try match goal with
         | |- wp _ _ (?o, _) =>
             unfold wp; exists o;
             split; [done|]; split; [done|]; split; [by repeat split|];
             right; subst parent; by destruct (Model_save today (o, db))
         end.
    all: eexists; split; [|split; [|split]];
      [| | |left; eexists; split; reflexivity];
      first [done|by repeat split]. }
  unfold wp in Hbody.
  destruct (save_body today (self, db)) as [r [obj db1]].
  cbn [fst snd] in Hbody.
  destruct Hbody as (derived & Hpk & Hcr & Hsame & Hcase).
  exists derived. split_and!; try done.
  destruct Hcase as [(e & -> & [= -> ->])|Hparent].
  - left. exists e. by split_and!.
  - right. exists r, db1. destruct r as [[]|e]; cbn [fst snd].
    + destruct ctx, (pk obj) eqn:Hk; cbn [fst snd]; rewrite ?Hk;
        by split_and!.
    + by split_and!.
Qed.

Lemma get_for_object_cons (self : Application) k v rws vs :
  pk self = Some k → Version.object_id v = k →
  get_for_object {| rows := rws; versions := v :: vs |} self
  = Ok (v :: filter (λ v, Version.object_id v = k) vs).
Proof.
  intros Hk Hv. unfold get_for_object. rewrite Hk. cbn [versions].
  by rewrite filter_cons_True.
Qed.



(** A postcondition on the database that [save] leaves: when the body
    returns, the revision block may still add a version, so the
    postcondition has to hold for every version table. *)
Lemma save_wp_database today ctx db self
    (Q : result unit → Application → Database → Prop) :
  wp (save_body today)
     (λ r w', match r with
              | Ok _ => ∀ vs,
                  Q (Ok tt) w'.1 {| rows := rows w'.2; versions := vs |}
              | Raise e => Q (Raise e) w'.1 w'.2
              end) (self, db) →
  Q (save_outcome today ctx db self) (after_save today ctx db self)
    (database_after_save today ctx db self).
Proof.
  unfold wp, save_outcome, after_save, database_after_save, save,
    create_revision.
  destruct (save_body today (self, db)) as [[[]|e] [obj [r vs]]];
    cbn [fst snd rows]; intros H; [|done].
  destruct ctx, (pk obj); cbn [fst snd]; apply H.
Qed.

(** X10: when [save] raises before it reaches the parent's [save], the
    database is as it was and the assignments already made stay in memory.
    In the history branch, the closing save of an object that lacks its
    [date_created] raises a [TypeError] once [date_closed] has been
    assigned: [date_closed] is today, [days_open] and
    [earliest_expiry_date] are as before.  And a save that leaves
    [date_closed] set, without expiry date before it, where [date_closed]
    plus the partner's term is not a date, has raised and has left the
    expiry date unset. *)
Theorem save_raises_cleanly today ctx db self :
  (∀ n v,
     get_version_count db self = Ok (Some n) → 2 ≤ n →
     get_latest_version db self = Ok (Some v) →
     status (Version.field_dict v) = PENDING ∨
       status (Version.field_dict v) = QUESTION →
     status self = APPROVED ∨ status self = NOT_APPROVED →
     date_closed self = None →
     date_created self = None →
     save_outcome today ctx db self = Raise TypeError ∧
     database_after_save today ctx db self = db ∧
     date_closed (after_save today ctx db self) = Some today ∧
     days_open (after_save today ctx db self) = days_open self ∧
     earliest_expiry_date (after_save today ctx db self)
       = earliest_expiry_date self) ∧
  (∀ d,
     earliest_expiry_date self = None →
     date_closed (after_save today ctx db self) = Some d →
     ¬ date_in_range (d + access_grant_term (partner self)) →
     (∃ e, save_outcome today ctx db self = Raise e) ∧
     database_after_save today ctx db self = db ∧
     earliest_expiry_date (after_save today ctx db self) = None).
Proof.
  split.
  - intros n v Hcount Hn Hversion Hprev Hcur Hclosed Hcreated.
    apply py_in_open in Hprev. apply py_in_closed in Hcur.
    pattern (save_outcome today ctx db self), (after_save today ctx db self),
      (database_after_save today ctx db self).
    apply save_wp_database. unfold save_body, field_dict_status.
    wp_go. rewrite Hversion. wp_go. rewrite Hcount. wp_go.
    cbn [ge_2]. rewrite bool_decide_eq_true_2 by done.
    wp_go. rewrite Hprev, Hcur, Hclosed. cbn [truthy negb andb].
    wp_go. rewrite Hcreated. cbn [date_sub]. done.
  - intros d Hnone.
    pattern (save_outcome today ctx db self), (after_save today ctx db self),
      (database_after_save today ctx db self).
    apply save_wp_database. unfold save_body, field_dict_status.
    destruct (accessors_cases db self)
      as [(count & ov & Hcount & Hge & Hversion)
         |(count & ov & Hcount & Hge & Hversion)];
      wp_go; rewrite Hversion; wp_go; rewrite Hcount; wp_go; rewrite Hge.
    all: wp_run; intros; simplify_eq.
    all: try match goal with
         | H1 : date_closed ?o = date_closed ?s,
           H2 : date_closed ?s = Some ?a,
           H3 : date_closed ?o = Some ?b |- _ =>
             assert (b = a) by congruence; subst b
         end.
    all: first [ by eauto
               | congruence
               | contradiction
               | exfalso; congruence
               | split; [by eauto|split; first [done|congruence]] ].
Qed.

Lemma save_raises_cleanly_witness :
  let self := sample_application (Some 1) APPROVED None None None None 365 in
  let db := sample_database [sample_version 1 QUESTION 738000;
                             sample_version 1 PENDING 738000] in
  save_outcome 738010 sample_block db self = Raise TypeError ∧
  database_after_save 738010 sample_block db self = db ∧
  date_closed (after_save 738010 sample_block db self) = Some 738010 ∧
  days_open (after_save 738010 sample_block db self) = days_open self ∧
  earliest_expiry_date (after_save 738010 sample_block db self)
    = earliest_expiry_date self.
Proof.
  intros self db.
  apply (proj1 (save_raises_cleanly 738010 sample_block db self) 2
           (sample_version 1 QUESTION 738000)).
  - vm_compute. reflexivity.
  - lia.
  - vm_compute. reflexivity.
  - right. reflexivity.
  - left. reflexivity.
  - reflexivity.
  - reflexivity.
Defined.

(** X11: [save] assigns none of the fields that belong to the caller
    (status, editor, partner, rationale, title, stream, comments,
    agreement), whether it returns or raises; it keeps a primary key that
    is set; and it keeps [date_created] unless it inserts the record, in
    which case [date_created] becomes today. *)
Theorem save_keeps_caller_fields today ctx db self :
  let obj := after_save today ctx db self in
  same_caller_fields self obj ∧
  (∀ k, pk self = Some k → pk obj = Some k) ∧
  ((∃ k, pk self = Some k ∧ k ∈ rows db) →
   date_created obj = date_created self) ∧
  ((∀ k, pk self = Some k → k ∉ rows db) →
   save_outcome today ctx db self = Ok tt →
   date_created obj = Some today).
Proof.
  intros obj.
  destruct (save_state today ctx db self)
    as (derived & Hpk & Hcr & Hsame & Hcase).
  fold obj in Hcase.
  destruct Hcase as [(e & Hout & Hobj & _)|(r & db1 & Hparent & Hout & _)].
  - rewrite Hobj. split_and!; try done; [congruence|].
    intros _ Hok. congruence.
  - destruct (Model_save_state today derived db)
      as (r' & obj' & db1' & Heq & _ & _ & _ & Hkey & Hup & Hins & Hsame').
    rewrite Hparent in Heq. injection Heq as <- <- <-.
    split_and!.
    + unfold same_caller_fields in *. destruct_and!.
      repeat split; congruence.
    + intros k0 Hk0. apply Hkey. congruence.
    + intros Hrow. rewrite <- Hpk in Hrow. destruct (Hup Hrow) as [-> _].
      done.
    + intros Hnew _. rewrite <- Hpk in Hnew. by rewrite (Hins Hnew).
Qed.

Lemma save_keeps_caller_fields_witness :
  date_created
    (after_save 738010 sample_block
       (sample_database [sample_version 1 PENDING 738000])
       (sample_application (Some 1) APPROVED (Some 738000) None None None 365))
  = Some 738000.
Proof.
  apply (proj1 (proj2 (proj2
    (save_keeps_caller_fields 738010 sample_block
       (sample_database [sample_version 1 PENDING 738000])
       (sample_application (Some 1) APPROVED (Some 738000) None None None
          365))))).
  exists 1. split; [reflexivity|]. vm_compute. reflexivity.
Defined.

(** X12: while the status is open and [date_closed] is not set, [save]
    derives nothing, whatever the history and whether the database accepts
    the record or not: [date_closed], [days_open] and
    [earliest_expiry_date] are left as they are. *)
Theorem save_open_derives_nothing today ctx db self :
  status self = PENDING ∨ status self = QUESTION →
  date_closed self = None →
  date_closed (after_save today ctx db self) = None ∧
  days_open (after_save today ctx db self) = days_open self ∧
  earliest_expiry_date (after_save today ctx db self)
    = earliest_expiry_date self.
Proof.
  intros Hopen Hclosed.
  assert (py_in (status self) [APPROVED; NOT_APPROVED] = false) as Hnot.
  { apply not_true_is_false. rewrite py_in_closed.
    unfold PENDING, QUESTION, APPROVED, NOT_APPROVED in *. lia. }
  save_any db self; wp_go; rewrite Hnot, ?andb_false_r; cbn [andb];
    wp_go; rewrite Hclosed; wp_go; split_and!; congruence.
Qed.

Lemma save_open_derives_nothing_witness :
  let db := sample_database [sample_version 1 QUESTION 738000;
                             sample_version 1 PENDING 738000] in
  let self :=
    sample_application (Some 1) QUESTION (Some 738000) None None None 365 in
  date_closed (after_save 738010 sample_block db self) = None ∧
  days_open (after_save 738010 sample_block db self) = days_open self ∧
  earliest_expiry_date (after_save 738010 sample_block db self)
    = earliest_expiry_date self.
Proof.
  intros db self.
  apply (save_open_derives_nothing 738010 sample_block db self);
    [right|]; reflexivity.
Defined.

(** X13: with two or more versions, [save] closes the application only
    on a transition out of an open status: if the latest version's status
    is not PENDING or QUESTION, [date_closed] and [days_open] stay as they
    are, even when the current status is closed and [date_closed] is not
    set. *)
Theorem save_needs_open_prior_status today ctx db self n v :
  get_version_count db self = Ok (Some n) → 2 ≤ n →
  get_latest_version db self = Ok (Some v) →
  status (Version.field_dict v) ∉ [PENDING; QUESTION] →
  date_closed (after_save today ctx db self) = date_closed self ∧
  days_open (after_save today ctx db self) = days_open self.
Proof.
  intros Hcount Hn Hversion Hprev.
  assert (py_in (status (Version.field_dict v)) [PENDING; QUESTION] = false)
    as Hnot.
  { apply not_true_is_false. rewrite py_in_open.
    rewrite !elem_of_cons, elem_of_nil in Hprev. tauto. }
  save_start. wp_go. rewrite Hversion. wp_go. rewrite Hcount. wp_go.
  cbn [ge_2]. rewrite bool_decide_eq_true_2 by done.
  wp_go. rewrite Hnot. cbn [andb]. wp_run; split; congruence.
Qed.

Lemma save_needs_open_prior_status_witness :
  let db := sample_database [sample_version 1 APPROVED 738000;
                             sample_version 1 PENDING 738000] in
  let self :=
    sample_application (Some 1) NOT_APPROVED (Some 738000) None None None
      365 in
  date_closed (after_save 738010 sample_block db self) = date_closed self ∧
  days_open (after_save 738010 sample_block db self) = days_open self.
Proof.
  intros db self.
  apply (save_needs_open_prior_status 738010 sample_block db self 2
           (sample_version 1 APPROVED 738000)).
  - vm_compute. reflexivity.
  - lia.
  - vm_compute. reflexivity.
  - cbn. rewrite !elem_of_cons, elem_of_nil.
    unfold PENDING, QUESTION, APPROVED. lia.
Defined.

(** X14: on every object that the save logic can reach, [days_open] and
    [earliest_expiry_date] are only set together with [date_closed]. *)
Theorem reachable_derived_with_date_closed ok self :
  reachable ok self →
  (days_open self ≠ None → date_closed self ≠ None) ∧
  (earliest_expiry_date self ≠ None → date_closed self ≠ None).
Proof.
  intros Hreach. split; [by apply (reachable_days_open_closed ok)|].
  induction Hreach
    as [a Hc Hd He|a a' Ha IH (Hc & Hd & He)|a today ctx db Ha IH Hok].
  - congruence.
  - rewrite Hc, He. exact IH.
  - destruct (earliest_expiry_date (after_save today ctx db a))
      as [e|] eqn:Hexp; [intros _|done].
    destruct (save_expiry_origin _ _ _ _ _ Hexp) as [Hold|(d & Hd & _)].
    + destruct (date_closed a) as [d|] eqn:Hd; [|by destruct IH; congruence].
      by rewrite (save_keeps_date_closed _ _ _ _ _ Hd).
    + congruence.
Qed.

Lemma reachable_derived_with_date_closed_witness :
  date_closed
    (after_save 738000 sample_block empty_database
       (sample_application None APPROVED None None None None 365)) ≠ None.
Proof.
  assert (reachable (λ _, True)
            (after_save 738000 sample_block empty_database
               (sample_application None APPROVED None None None None 365)))
    as Hreach.
  { apply reachable_save; [apply reachable_new; reflexivity|exact I]. }
  apply (proj1 (reachable_derived_with_date_closed _ _ Hreach)).
  vm_compute. discriminate.
Defined.

(** When [save] returns and finds no expiry date, the object ends with
    the expiry date of its closing date, if it has one. *)
Lemma save_returns_expiry today ctx db self d :
  save_outcome today ctx db self = Ok tt →
  earliest_expiry_date self = None →
  date_closed (after_save today ctx db self) = Some d →
  earliest_expiry_date (after_save today ctx db self)
    = Some (d + access_grant_term (partner self)).
Proof.
  intros Hout Hnone. revert Hout.
  save_any db self; wp_run; intros; simplify_eq.
  all: try match goal with
       | H1 : date_closed ?o = date_closed ?s, H2 : date_closed ?s = Some ?a,
         H3 : date_closed ?o = Some ?b |- _ =>
           assert (b = a) by congruence; subst b
       end.
  all: first [done|congruence].
Qed.

(** X15: an application that a returning [save] leaves closed on day
    [d], and whose expiry date that save computed, is reported by
    [is_probably_expired] from day [d + access_grant_term] on and not
    before; with a term that is not positive it is reported on the closing
    day itself. *)
Theorem closed_application_expires_after_term today ctx db self d later :
  save_outcome today ctx db self = Ok tt →
  earliest_expiry_date self = None →
  date_closed (after_save today ctx db self) = Some d →
  (is_probably_expired later (after_save today ctx db self) = true ↔
   d + access_grant_term (partner self) ≤ later) ∧
  get_num_days_until_expiration d (after_save today ctx db self)
    = (if bool_decide (0 < access_grant_term (partner self))
       then Some (access_grant_term (partner self))
       else None).
Proof.
  intros Hout Hnone Hd.
  pose proof (save_returns_expiry _ _ _ _ _ Hout Hnone Hd) as Hexp.
  unfold is_probably_expired, get_num_days_until_expiration, days_between.
  rewrite Hexp. split.
  - case_bool_decide; split; try done; lia.
  - do 2 case_bool_decide; try lia; [|done]. f_equal. lia.
Qed.

Lemma closed_application_expires_after_term_witness :
  let after :=
    after_save 738000 sample_block empty_database
      (sample_application None APPROVED None None None None 365) in
  (is_probably_expired 738365 after = true ↔ 738000 + 365 ≤ 738365) ∧
  get_num_days_until_expiration 738000 after
    = (if bool_decide (0 < 365) then Some 365 else None).
Proof.
  intros after.
  apply (closed_application_expires_after_term 738000 sample_block
           empty_database
           (sample_application None APPROVED None None None None 365)
           738000 738365).
  - vm_compute. reflexivity.
  - reflexivity.
  - vm_compute. reflexivity.
Defined.

Lemma get_num_days_open_closed later self closed created :
  status self = APPROVED ∨ status self = NOT_APPROVED →
  date_closed self = Some closed →
  date_created self = Some created →
  get_num_days_open later self = Ok (closed - created).
Proof.
  intros Hst Hclosed Hcreated. unfold get_num_days_open.
  assert (py_in (status self) [PENDING; QUESTION] = false) as ->.
  { apply not_true_is_false. rewrite py_in_open.
    unfold PENDING, QUESTION, APPROVED, NOT_APPROVED in *. lia. }
  apply py_in_closed in Hst. by rewrite Hst, Hclosed, Hcreated.
Qed.

(** Finish the goals about [get_num_days_open] on the object that the
    parent's [save] returns for a record that has a row. *)
Ltac closed_days Hrow :=
  split; [|first [done|congruence]];
  eapply get_num_days_open_closed;
  [first [ match goal with
           | H : status ?o = status _ |- status ?o = _ ∨ _ =>
               rewrite H; eassumption
           end
         | cbn; eassumption ]
  |first [eassumption|cbn; reflexivity]
  |first [ match goal with
           | H : (∃ k, _ ∧ _) → _ = _ |- _ => rewrite (H Hrow); cbn; eassumption
           end
         | cbn; eassumption ]].

(** X16: for an application that has a row and is closed by [save]
    through the history branch (two or more versions, the latest one
    open), the stored [days_open] and what [get_num_days_open] computes on
    the saved object, on any later day, are the same number: today -
    [date_created]. *)
Theorem days_open_agrees_after_history_closure
    today ctx db self n v created later :
  get_version_count db self = Ok (Some n) → 2 ≤ n →
  get_latest_version db self = Ok (Some v) →
  status (Version.field_dict v) = PENDING ∨
    status (Version.field_dict v) = QUESTION →
  status self = APPROVED ∨ status self = NOT_APPROVED →
  date_closed self = None →
  date_created self = Some created →
  (∃ k, pk self = Some k ∧ k ∈ rows db) →
  get_num_days_open later (after_save today ctx db self)
    = Ok (today - created) ∧
  days_open (after_save today ctx db self) = Some (today - created).
Proof.
  intros Hcount Hn Hversion Hprev Hcur Hclosed Hcreated Hrow.
  pose proof Hcur as Hcur'.
  apply py_in_open in Hprev. apply py_in_closed in Hcur.
  save_start. wp_go. rewrite Hversion. wp_go. rewrite Hcount. wp_go.
  cbn [ge_2]. rewrite bool_decide_eq_true_2 by done.
  wp_go. rewrite Hprev, Hcur, Hclosed. cbn [truthy negb andb].
  wp_go. rewrite Hcreated. cbn [date_sub]. unfold days_between.
  wp_run; closed_days Hrow.
Qed.

Lemma days_open_agrees_after_history_closure_witness :
  let db := sample_database [sample_version 1 QUESTION 738000;
                             sample_version 1 PENDING 738000] in
  let self :=
    sample_application (Some 1) APPROVED (Some 738000) None None None 365 in
  get_num_days_open 739000 (after_save 738010 sample_block db self) = Ok 10 ∧
  days_open (after_save 738010 sample_block db self) = Some 10.
Proof.
  intros db self.
  apply (days_open_agrees_after_history_closure 738010 sample_block db self 2
           (sample_version 1 QUESTION 738000) 738000 739000).
  - vm_compute. reflexivity.
  - lia.
  - vm_compute. reflexivity.
  - right. reflexivity.
  - left. reflexivity.
  - reflexivity.
  - reflexivity.
  - exists 1. split; [reflexivity|]. vm_compute. reflexivity.
Defined.

(** X17: for an application that has a row and exactly one version, a
    closing [save] stores [days_open] = 0 whereas [get_num_days_open] on
    the saved object returns today - [date_created]: the two differ by the
    age of the application. *)
Theorem days_open_differs_after_single_version
    today ctx db self created later :
  get_version_count db self = Ok (Some 1) →
  status self = APPROVED ∨ status self = NOT_APPROVED →
  date_closed self = None →
  date_created self = Some created →
  (∃ k, pk self = Some k ∧ k ∈ rows db) →
  get_num_days_open later (after_save today ctx db self)
    = Ok (today - created) ∧
  days_open (after_save today ctx db self) = Some 0.
Proof.
  intros Hcount Hcur Hclosed Hcreated Hrow.
  pose proof Hcur as Hcur'. apply py_in_closed in Hcur.
  save_start. wp_go. rewrite get_latest_version_history. wp_go.
  rewrite Hcount. wp_go. cbn [ge_2].
  rewrite bool_decide_eq_false_2 by lia.
  wp_go. rewrite Hcur, Hclosed. cbn [truthy negb andb].
  wp_run; closed_days Hrow.
Qed.

Lemma days_open_differs_after_single_version_witness :
  let db := sample_database [sample_version 1 PENDING 738000] in
  let self :=
    sample_application (Some 1) APPROVED (Some 738000) None None None 365 in
  get_num_days_open 739000 (after_save 738010 sample_block db self) = Ok 10 ∧
  days_open (after_save 738010 sample_block db self) = Some 0.
Proof.
  intros db self.
  apply (days_open_differs_after_single_version 738010 sample_block db self
           738000 739000).
  - vm_compute. reflexivity.
  - left. reflexivity.
  - reflexivity.
  - reflexivity.
  - exists 1. split; [reflexivity|]. vm_compute. reflexivity.
Defined.

(** * Sequences of saves *)

(** While the status is open and [date_closed] is not set, the body of
    [save] is the parent's [save]. *)
Lemma save_body_open today db self :
  status self = PENDING ∨ status self = QUESTION →
  date_closed self = None →
  save_body today (self, db) = Model_save today (self, db).
Proof.
  intros Hopen Hclosed.
  assert (py_in (status self) [APPROVED; NOT_APPROVED] = false) as Hnot.
  { apply not_true_is_false. rewrite py_in_closed.
    unfold PENDING, QUESTION, APPROVED, NOT_APPROVED in *. lia. }
  assert (wp (save_body today)
            (λ r w', (r, w') = Model_save today (self, db)) (self, db))
    as Hwp.
  { unfold save_body, field_dict_status. set (parent := Model_save today).
    destruct (accessors_cases db self)
      as [(count & ov & Hcount & Hge & Hversion)
         |(count & ov & Hcount & Hge & Hversion)];
      wp_go; rewrite Hversion; wp_go; rewrite Hcount; wp_go; rewrite Hge;
      wp_go; rewrite Hnot, ?andb_false_r; cbn [andb]; wp_go;
      rewrite Hclosed; wp_go; unfold wp, parent;
      by destruct (Model_save today (self, db)). }
  unfold wp in Hwp. by destruct (save_body today (self, db)).
Qed.

(** The first save of a new, open application, in a revision block of its
    own, when the database accepts the record. *)
Lemma first_save_open today now db self :
  pk self = None →
  status self = PENDING ∨ status self = QUESTION →
  date_closed self = None →
  save_outcome today (RevisionBlock.Outermost now) db self = Ok tt →
  let obj := set_pk (Some (fresh_pk db)) (set_date_created (Some today) self) in
  save today (RevisionBlock.Outermost now) (self, db)
  = (Ok tt, (obj, {| rows := add_key (fresh_pk db) (rows db);
                     versions := version_of now obj (fresh_pk db)
                                 :: versions db |})).
Proof.
  intros Hpk Hopen Hclosed. unfold save_outcome, save, create_revision.
  rewrite (save_body_open _ _ _ Hopen Hclosed).
  unfold Model_save. cbn [fst snd]. rewrite Hpk.
  by destruct (write_error (rows db) true _).
Qed.

(** A later save of an open application that has a row, in a revision
    block of its own, when the database accepts the record. *)
Lemma later_save_open today now db self k :
  pk self = Some k → k ∈ rows db →
  status self = PENDING ∨ status self = QUESTION →
  date_closed self = None →
  save_outcome today (RevisionBlock.Outermost now) db self = Ok tt →
  save today (RevisionBlock.Outermost now) (self, db)
  = (Ok tt, (self, {| rows := rows db;
                      versions := version_of now self k :: versions db |})).
Proof.
  intros Hpk Hrow Hopen Hclosed. unfold save_outcome, save, create_revision.
  rewrite (save_body_open _ _ _ Hopen Hclosed).
  unfold Model_save. cbn [fst snd]. rewrite Hpk.
  rewrite bool_decide_eq_true_2 by done.
  destruct (write_error (rows db) false self); [done|]. by rewrite Hpk.
Qed.

Lemma no_snapshots_filter db self k :
  pk self = Some k → no_snapshots db self →
  filter (λ v, Version.object_id v = k) (versions db) = [].
Proof.
  intros Hpk Hno. pose proof (no_snapshots_history db self Hno) as Hh.
  unfold history, get_for_object in Hh. by rewrite Hpk in Hh.
Qed.

(** Closure below two versions, and closure on an open latest version of
    two or more. *)
Lemma first_branch_closure today ctx db self count :
  get_version_count db self = Ok count → ge_2 count = false →
  status self = APPROVED ∨ status self = NOT_APPROVED →
  date_closed self = None →
  date_closed (after_save today ctx db self) = Some today ∧
  days_open (after_save today ctx db self) = Some 0.
Proof.
  intros Hcount Hge Hcur Hclosed. apply py_in_closed in Hcur.
  save_start. wp_go. rewrite get_latest_version_history. wp_go.
  rewrite Hcount. wp_go. rewrite Hge.
  wp_go. rewrite Hcur, Hclosed. cbn [truthy negb andb].
  wp_run; split; congruence.
Qed.

Lemma history_branch_closure today ctx db self count v created :
  get_version_count db self = Ok count → ge_2 count = true →
  get_latest_version db self = Ok (Some v) →
  status (Version.field_dict v) = PENDING ∨
    status (Version.field_dict v) = QUESTION →
  status self = APPROVED ∨ status self = NOT_APPROVED →
  date_closed self = None →
  date_created self = Some created →
  date_closed (after_save today ctx db self) = Some today ∧
  days_open (after_save today ctx db self) = Some (today - created).
Proof.
  intros Hcount Hge Hversion Hprev Hcur Hclosed Hcreated.
  apply py_in_open in Hprev. apply py_in_closed in Hcur.
  save_start. wp_go. rewrite Hversion. wp_go. rewrite Hcount. wp_go.
  rewrite Hge. wp_go. rewrite Hprev, Hcur, Hclosed. cbn [truthy negb andb].
  wp_go. rewrite Hcreated. cbn [date_sub]. unfold days_between.
  wp_run; split; first [done|congruence].
Qed.

(** X18: a new application is saved once while open, on day [t1], in a
    revision block of its own, into a database that accepts the record and
    holds no version under the key it receives; a reviewer then sets a
    closed status and saves on day [t2].  That second save finds one
    version, so it sets [date_closed] to [t2] and [days_open] to 0, however
    many days lie between [t1] and [t2], and whether it returns or not. *)
Theorem review_after_one_save t1 t2 now1 ctx2 db self st :
  pk self = None →
  status self = PENDING ∨ status self = QUESTION →
  date_closed self = None →
  no_snapshots db (set_pk (Some (fresh_pk db)) self) →
  save_outcome t1 (RevisionBlock.Outermost now1) db self = Ok tt →
  st = APPROVED ∨ st = NOT_APPROVED →
  let obj1 := after_save t1 (RevisionBlock.Outermost now1) db self in
  let db1 := database_after_save t1 (RevisionBlock.Outermost now1) db self in
  let obj2 := after_save t2 ctx2 db1 (set_status st obj1) in
  date_created obj1 = Some t1 ∧
  get_version_count db1 (set_status st obj1) = Ok (Some 1) ∧
  date_closed obj2 = Some t2 ∧
  days_open obj2 = Some 0.
Proof.
  intros Hpk Hopen Hclosed Hno Hout Hst obj1 db1 obj2.
  pose proof (first_save_open t1 now1 db self Hpk Hopen Hclosed Hout)
    as Hsave.
  cbn zeta in Hsave.
  set (k := fresh_pk db) in *.
  set (o := set_pk (Some k) (set_date_created (Some t1) self)) in *.
  assert (obj1 = o) as Hobj1.
  { unfold obj1, after_save. by rewrite Hsave. }
  assert (db1 = {| rows := add_key k (rows db);
                   versions := version_of now1 o k :: versions db |}) as Hdb1.
  { unfold db1, database_after_save. by rewrite Hsave. }
  subst obj2. clearbody obj1 db1. subst obj1 db1.
  assert (get_version_count
            {| rows := add_key k (rows db);
               versions := version_of now1 o k :: versions db |}
            (set_status st o) = Ok (Some 1)) as Hcount.
  { unfold get_version_count.
    rewrite (get_for_object_cons _ k) by done.
    by rewrite (no_snapshots_filter db (set_pk (Some k) self) k eq_refl Hno). }
  split_and!; try done.
  - by apply (first_branch_closure t2 ctx2 _ _ (Some 1)).
  - by apply (first_branch_closure t2 ctx2 _ _ (Some 1)).
Qed.

Lemma review_after_one_save_witness :
  let self := sample_application None PENDING None None None None 365 in
  let obj1 := after_save 738000 sample_block empty_database self in
  let db1 := database_after_save 738000 sample_block empty_database self in
  let obj2 :=
    after_save 738010 RevisionBlock.Enclosed db1 (set_status APPROVED obj1) in
  date_created obj1 = Some 738000 ∧
  get_version_count db1 (set_status APPROVED obj1) = Ok (Some 1) ∧
  date_closed obj2 = Some 738010 ∧
  days_open obj2 = Some 0.
Proof.
  intros self.
  apply (review_after_one_save 738000 738010 1700000000
           RevisionBlock.Enclosed empty_database self APPROVED).
  - reflexivity.
  - left. reflexivity.
  - reflexivity.
  - intros v Hv. by apply elem_of_nil in Hv.
  - vm_compute. reflexivity.
  - left. reflexivity.
Defined.

(** X19: the same application saved twice while open, on days [t1] and
    [t2], each time in a revision block of its own and accepted by the
    database, and then saved with a closed status on day [t3]: the third
    save finds two versions, the latest one open, so it sets [date_closed]
    to [t3] and [days_open] to [t3 - t1]. *)
Theorem review_after_two_saves t1 t2 t3 now1 now2 ctx3 db self st :
  pk self = None →
  status self = PENDING ∨ status self = QUESTION →
  date_closed self = None →
  no_snapshots db (set_pk (Some (fresh_pk db)) self) →
  st = APPROVED ∨ st = NOT_APPROVED →
  let obj1 := after_save t1 (RevisionBlock.Outermost now1) db self in
  let db1 := database_after_save t1 (RevisionBlock.Outermost now1) db self in
  let obj2 := after_save t2 (RevisionBlock.Outermost now2) db1 obj1 in
  let db2 := database_after_save t2 (RevisionBlock.Outermost now2) db1 obj1 in
  let obj3 := after_save t3 ctx3 db2 (set_status st obj2) in
  save_outcome t1 (RevisionBlock.Outermost now1) db self = Ok tt →
  save_outcome t2 (RevisionBlock.Outermost now2) db1 obj1 = Ok tt →
  get_version_count db2 (set_status st obj2) = Ok (Some 2) ∧
  date_closed obj3 = Some t3 ∧
  days_open obj3 = Some (t3 - t1).
Proof.
  intros Hpk Hopen Hclosed Hno Hst obj1 db1 obj2 db2 obj3 Hout1 Hout2.
  pose proof (first_save_open t1 now1 db self Hpk Hopen Hclosed Hout1)
    as Hsave1.
  cbn zeta in Hsave1.
  set (k := fresh_pk db) in *.
  set (o := set_pk (Some k) (set_date_created (Some t1) self)) in *.
  assert (obj1 = o) as Hobj1.
  { unfold obj1, after_save. by rewrite Hsave1. }
  assert (db1 = {| rows := add_key k (rows db);
                   versions := version_of now1 o k :: versions db |}) as Hdb1.
  { unfold db1, database_after_save. by rewrite Hsave1. }
  assert (save t2 (RevisionBlock.Outermost now2) (obj1, db1)
          = (Ok tt, (o, {| rows := rows db1;
                           versions := version_of now2 o k :: versions db1 |})))
    as Hsave2.
  { revert Hout2. rewrite Hobj1. intros Hout2.
    apply later_save_open; try done.
    rewrite Hdb1. cbn [rows]. unfold add_key, elem_of, Table_elem_of.
    cbn [keys]. apply elem_of_union. left. by apply elem_of_singleton. }
  assert (obj2 = o) as Hobj2.
  { unfold obj2, after_save. by rewrite Hsave2. }
  assert (db2 = {| rows := rows db1;
                   versions := version_of now2 o k :: versions db1 |}) as Hdb2.
  { unfold db2, database_after_save. by rewrite Hsave2. }
  clear Hout1 Hout2 Hsave1 Hsave2.
  clearbody obj1 db1 obj2 db2. subst obj1 obj2 db2 db1.
  assert (get_for_object
            {| rows := add_key k (rows db);
               versions := version_of now2 o k :: version_of now1 o k
                           :: versions db |} (set_status st o)
          = Ok [version_of now2 o k; version_of now1 o k]) as Hget.
  { rewrite (get_for_object_cons _ k) by done. do 2 f_equal.
    rewrite filter_cons_True by done.
    by rewrite (no_snapshots_filter db (set_pk (Some k) self) k eq_refl Hno). }
  cbn [rows versions] in *.
  assert (get_version_count
            {| rows := add_key k (rows db);
               versions := version_of now2 o k :: version_of now1 o k
                           :: versions db |} (set_status st o)
          = Ok (Some 2)) as Hcount.
  { unfold get_version_count. by rewrite Hget. }
  split; [done|].
  apply (history_branch_closure t3 ctx3 _ _ (Some 2) (version_of now2 o k) t1);
    try done.
  unfold get_latest_version. by rewrite Hget.
Qed.

Lemma review_after_two_saves_witness :
  let self := sample_application None PENDING None None None None 365 in
  let obj1 := after_save 738000 sample_block empty_database self in
  let db1 := database_after_save 738000 sample_block empty_database self in
  let obj2 := after_save 738005 sample_block db1 obj1 in
  let db2 := database_after_save 738005 sample_block db1 obj1 in
  let obj3 :=
    after_save 738010 RevisionBlock.Enclosed db2 (set_status APPROVED obj2) in
  get_version_count db2 (set_status APPROVED obj2) = Ok (Some 2) ∧
  date_closed obj3 = Some 738010 ∧
  days_open obj3 = Some 10.
Proof.
  intros self.
  apply (review_after_two_saves 738000 738005 738010 1700000000 1700000000
           RevisionBlock.Enclosed empty_database self APPROVED).
  - reflexivity.
  - left. reflexivity.
  - reflexivity.
  - intros v Hv. by apply elem_of_nil in Hv.
  - left. reflexivity.
  - vm_compute. reflexivity.
  - vm_compute. reflexivity.
Defined.
